(** * HP E3631A triple output DC power supply: the driver and its protocol

    A shallow embedding of [pymeasure/instruments/hp/hpE3631A.py] and the
    properties of its channel selection, setpoint and measurement protocol.

    - Python values are [pyval]; a method is a function on the driver
      object returning a value or a raised exception together with the
      object as it then is ([M]).
    - Floats are IEEE binary64 ([PrimFloat]); [float(s)] and ['%g' % x]
      are computed exactly in integer arithmetic.
    - The transport is a type class with a blocking write and a blocking
      query; every call and every pause is recorded, in order, in the
      driver object's log.
    - The [Instrument] base class and the validators are not part of the
      source file; they are modelled from the specification and marked so.
    - Text on the serial link is ASCII (seven data bits). *)

From Stdlib Require Import ZArith List String Ascii Bool Lia.
From Stdlib Require Import DecimalString.
From Stdlib Require Import Floats Uint63.
Import ListNotations.
Open Scope string_scope.
Open Scope Z_scope.
Set Warnings "-inexact-float,-register-all,-masking-absolute-name".

(** * Python values, exceptions and results *)

Inductive pyval : Type :=
| PyNone
| PyBool (b : bool)
| PyInt (z : Z)
| PyFloat (f : float)
| PyStr (s : string)
| PyList (l : list pyval)
| PyTuple (l : list pyval)
| PyDict (d : list (pyval * pyval)).

Inductive exn : Type :=
| NotImplementedError
| InvalidChannelError
| ValidationError
| KeyError
| ValueError
| TypeError
| AttributeError
| IndexError
| LookupError
| OverflowError.

Inductive result (A : Type) : Type :=
| Ok (a : A)
| Raise (e : exn).
Arguments Ok {A} a.
Arguments Raise {A} e.

Definition rbind {A B : Type} (r : result A) (k : A -> result B) : result B :=
  match r with
  | Ok a => k a
  | Raise e => Raise e
  end.

Notation "x <-- r ;; k" := (rbind r (fun x => k))
  (at level 61, r at next level, right associativity).


(** * The Python built-ins the driver relies on *)

Module Py.

Definition is_space (c : ascii) : bool :=
  let n := Z.of_nat (nat_of_ascii c) in
  ((9 <=? n) && (n <=? 13)) || ((28 <=? n) && (n <=? 32)).

Fixpoint lstrip (s : string) : string :=
  match s with
  | String c r => if is_space c then lstrip r else s
  | EmptyString => EmptyString
  end.

Fixpoint rstrip (s : string) : string :=
  match s with
  | EmptyString => EmptyString
  | String c r =>
      match rstrip r with
      | EmptyString => if is_space c then EmptyString else String c EmptyString
      | r' => String c r'
      end
  end.

Definition strip (s : string) : string := rstrip (lstrip s).

Fixpoint split (sep : ascii) (s : string) : list string :=
  match s with
  | EmptyString => [EmptyString]
  | String c r =>
      if Ascii.eqb c sep then EmptyString :: split sep r
      else match split sep r with
           | w :: ws => String c w :: ws
           | [] => [String c EmptyString]
           end
  end.

Fixpoint remove_char (old : ascii) (s : string) : string :=
  match s with
  | EmptyString => EmptyString
  | String c r =>
      if Ascii.eqb c old then remove_char old r else String c (remove_char old r)
  end.

Definition lower (c : ascii) : ascii :=
  let n := nat_of_ascii c in
  if (65 <=? n)%nat && (n <=? 90)%nat then ascii_of_nat (n + 32) else c.

Fixpoint lowercase (s : string) : string :=
  match s with
  | EmptyString => EmptyString
  | String c r => String (lower c) (lowercase r)
  end.

(** ** Decimal numerals *)

Definition digit_val (c : ascii) : option Z :=
  let n := Z.of_nat (nat_of_ascii c) in
  if (48 <=? n) && (n <=? 57) then Some (n - 48) else None.

(** The tail of a [digitpart]: digits, each optionally preceded by one
    underscore.  Returns the accumulated value, the number of digits read
    and the unread rest. *)
Fixpoint more_digits (acc n : Z) (s : string) : Z * Z * string :=
  match s with
  | String c r =>
      match digit_val c with
      | Some d => more_digits (10 * acc + d) (n + 1) r
      | None =>
          if Ascii.eqb c "_" then
            match r with
            | String c' r' =>
                match digit_val c' with
                | Some d => more_digits (10 * acc + d) (n + 1) r'
                | None => (acc, n, s)
                end
            | EmptyString => (acc, n, s)
            end
          else (acc, n, s)
      end
  | EmptyString => (acc, n, s)
  end.

(** [digitpart ::= digit (["_"] digit)*], continuing the numeral [acc]. *)
Definition digitpart (acc : Z) (s : string) : option (Z * Z * string) :=
  match s with
  | String c r =>
      match digit_val c with
      | Some d => Some (more_digits (10 * acc + d) 1 r)
      | None => None
      end
  | EmptyString => None
  end.

Definition read_sign (s : string) : bool * string :=
  match s with
  | String "-" r => (true, r)
  | String "+" r => (false, r)
  | _ => (false, s)
  end.

(** [number ::= [digitpart] "." digitpart | digitpart ["."]]: the digits as
    one integer, and how many of them follow the point. *)
Definition read_number (s : string) : option (Z * Z * string) :=
  match s with
  | String "." r => digitpart 0 r
  | _ =>
      match digitpart 0 s with
      | Some (ip, _, String "." r) =>
          match digitpart ip r with
          | Some res => Some res
          | None => Some (ip, 0, r)
          end
      | Some (ip, _, r) => Some (ip, 0, r)
      | None => None
      end
  end.

(** [exponent ::= ("e" | "E") [sign] digitpart], up to the end of the text. *)
Definition read_exponent (s : string) : option Z :=
  match s with
  | EmptyString => Some 0
  | String c r =>
      if Ascii.eqb (lower c) "e" then
        let (neg, r') := read_sign r in
        match digitpart 0 r' with
        | Some (e, _, EmptyString) => Some (if neg then - e else e)
        | _ => None
        end
      else None
  end.

(** ** Binary64 values *)

Definition round_half_even (n d : Z) : Z :=
  let q := n / d in
  match (2 * (n mod d)) ?= d with
  | Lt => q
  | Gt => q + 1
  | Eq => if Z.even q then q else q + 1
  end.

(** The binary64 value nearest to [n / d] (both positive), ties to even. *)
Definition of_ratio (n d : Z) : float :=
  let k0 := Z.log2 n - Z.log2 d in
  let k := if d * 2 ^ Z.max 0 k0 <=? n * 2 ^ Z.max 0 (- k0) then k0 else k0 - 1 in
  let e := Z.max (k - 52) (-1074) in
  if 971 <? e then infinity
  else
    let q := round_half_even (n * 2 ^ Z.max 0 (- e)) (d * 2 ^ Z.max 0 e) in
    Z.ldexp (of_uint63 (Uint63.of_Z q)) e.

Definition of_decimal (neg : bool) (mant e10 : Z) : float :=
  let a := if mant =? 0 then zero
           else of_ratio (mant * 10 ^ Z.max 0 e10) (10 ^ Z.max 0 (- e10)) in
  if neg then PrimFloat.opp a else a.

(** [float(s)] on a string: [None] where Python raises [ValueError]. *)
Definition float_of_str (s : string) : option float :=
  let (neg, r) := read_sign (strip s) in
  let w := lowercase r in
  if String.eqb w "inf" || String.eqb w "infinity" then
    Some (if neg then neg_infinity else infinity)
  else if String.eqb w "nan" then Some nan
  else
    match read_number r with
    | Some (mant, nfrac, r') =>
        match read_exponent r' with
        | Some e => Some (of_decimal neg mant (e - nfrac))
        | None => None
        end
    | None => None
    end.

(** ** [%]-formatting *)

Definition str_of_nat_Z (z : Z) : string :=
  NilZero.string_of_uint (N.to_uint (Z.to_N z)).

Definition format_d (z : Z) : string :=
  if z <? 0 then "-" ++ str_of_nat_Z (- z) else str_of_nat_Z z.

Fixpoint ilog10_aux (fuel : nat) (n : Z) : Z :=
  match fuel with
  | O => 0
  | S fuel' => if n <? 10 then 0 else 1 + ilog10_aux fuel' (n / 10)
  end.

Definition ilog10 (n : Z) : Z := ilog10_aux (Z.to_nat (Z.log2 n)) n.

Fixpoint strip_zeros (s : string) : string :=
  match s with
  | EmptyString => EmptyString
  | String c r =>
      match strip_zeros r with
      | EmptyString => if Ascii.eqb c "0" then EmptyString else String c EmptyString
      | r' => String c r'
      end
  end.

Definition with_point (ip frac : string) : string :=
  match frac with
  | EmptyString => ip
  | _ => ip ++ "." ++ frac
  end.

Fixpoint zeros (n : nat) : string :=
  match n with O => EmptyString | S n' => String "0" (zeros n') end.

(** Six significant digits [ds] at decimal exponent [x], as [%g] lays them
    out: positional for [-4 <= x < 6], scientific otherwise. *)
Definition layout_g (ds : string) (x : Z) : string :=
  if (-4 <=? x) && (x <? 6) then
    if 0 <=? x then
      let k := Z.to_nat (x + 1) in
      with_point (substring 0 k ds) (strip_zeros (substring k (6 - k) ds))
    else "0." ++ zeros (Z.to_nat (- x - 1)) ++ strip_zeros ds
  else
    let ex := str_of_nat_Z (Z.abs x) in
    with_point (substring 0 1 ds) (strip_zeros (substring 1 5 ds))
      ++ "e" ++ (if x <? 0 then "-" else "+")
      ++ (if Z.abs x <? 10 then "0" ++ ex else ex).

(** ['%g' % f] for a float. *)
Definition format_g (f : float) : string :=
  match Prim2SF f with
  | S754_nan => "nan"
  | S754_infinity s => if s then "-inf" else "inf"
  | S754_zero s => if s then "-0" else "0"
  | S754_finite s m e =>
      let n := Zpos m * 2 ^ Z.max 0 e in
      let d := 2 ^ Z.max 0 (- e) in
      let x0 := ilog10 n - ilog10 d in
      let x1 := if d * 10 ^ Z.max 0 x0 <=? n * 10 ^ Z.max 0 (- x0) then x0 else x0 - 1 in
      let r := round_half_even (n * 10 ^ Z.max 0 (5 - x1)) (d * 10 ^ Z.max 0 (x1 - 5)) in
      let body := if r =? 10 ^ 6 then layout_g (str_of_nat_Z (10 ^ 5)) (x1 + 1)
                  else layout_g (str_of_nat_Z r) x1 in
      if s then "-" ++ body else body
  end.

(** ** Numbers: [bool], [int] and [float] compare by value *)

Definition as_num (v : pyval) : option (Z + float) :=
  match v with
  | PyBool b => Some (inl (Z.b2z b))
  | PyInt z => Some (inl z)
  | PyFloat f => Some (inr f)
  | _ => None
  end.

(** An integer against a float, exactly ([None]: the float is a NaN). *)
Definition cmp_int_float (z : Z) (f : float) : option comparison :=
  match Prim2SF f with
  | S754_nan => None
  | S754_infinity s => Some (if s then Gt else Lt)
  | S754_zero _ => Some (z ?= 0)
  | S754_finite s m e =>
      Some (z * 2 ^ Z.max 0 (- e) ?= (if s then Zneg m else Zpos m) * 2 ^ Z.max 0 e)
  end.

Definition num_eq (a b : Z + float) : bool :=
  match a, b with
  | inl x, inl y => x =? y
  | inr x, inr y => PrimFloat.eqb x y
  | inl x, inr y | inr y, inl x =>
      match cmp_int_float x y with Some Eq => true | _ => false end
  end.

Definition num_lt (a b : Z + float) : bool :=
  match a, b with
  | inl x, inl y => x <? y
  | inr x, inr y => PrimFloat.ltb x y
  | inl x, inr y => match cmp_int_float x y with Some Lt => true | _ => false end
  | inr x, inl y => match cmp_int_float y x with Some Gt => true | _ => false end
  end.

Definition num_le (a b : Z + float) : bool :=
  match a, b with
  | inl x, inl y => x <=? y
  | inr x, inr y => PrimFloat.leb x y
  | inl x, inr y =>
      match cmp_int_float x y with Some Lt | Some Eq => true | _ => false end
  | inr x, inl y =>
      match cmp_int_float y x with Some Gt | Some Eq => true | _ => false end
  end.

(** [a == b]. *)
Fixpoint eq (a b : pyval) : bool :=
  let fix all2 (l l' : list pyval) : bool :=
    match l, l' with
    | [], [] => true
    | x :: r, y :: r' => eq x y && all2 r r'
    | _, _ => false
    end in
  match a, b with
  | PyNone, PyNone => true
  | PyStr s, PyStr t => String.eqb s t
  | PyList l, PyList l' => all2 l l'
  | PyTuple l, PyTuple l' => all2 l l'
  | PyDict d, PyDict d' =>
      (List.length d =? List.length d')%nat
      && forallb (fun kv => existsb (fun kv' => eq (fst kv) (fst kv') && eq (snd kv) (snd kv')) d') d
  | _, _ =>
      match as_num a, as_num b with
      | Some x, Some y => num_eq x y
      | _, _ => false
      end
  end.

(** [a < b] and [a <= b], on numbers and on strings. *)
Definition lt (a b : pyval) : result bool :=
  match as_num a, as_num b with
  | Some x, Some y => Ok (num_lt x y)
  | _, _ =>
      match a, b with
      | PyStr s, PyStr t => Ok (String.ltb s t)
      | _, _ => Raise TypeError
      end
  end.

Definition le (a b : pyval) : result bool :=
  match as_num a, as_num b with
  | Some x, Some y => Ok (num_le x y)
  | _, _ =>
      match a, b with
      | PyStr s, PyStr t => Ok (String.leb s t)
      | _, _ => Raise TypeError
      end
  end.

(** [min(values)] and [max(values)]: the first smallest (largest) item. *)
Fixpoint least (m : pyval) (l : list pyval) : result pyval :=
  match l with
  | [] => Ok m
  | y :: r => b <-- lt y m ;; least (if b then y else m) r
  end.

Fixpoint greatest (m : pyval) (l : list pyval) : result pyval :=
  match l with
  | [] => Ok m
  | y :: r => b <-- lt m y ;; greatest (if b then y else m) r
  end.

Definition items (v : pyval) : result (list pyval) :=
  match v with
  | PyList l | PyTuple l => Ok l
  | PyDict d => Ok (map fst d)
  | _ => Raise TypeError
  end.

Definition min (values : pyval) : result pyval :=
  l <-- items values ;;
  match l with
  | [] => Raise ValueError
  | x :: r => least x r
  end.

Definition max (values : pyval) : result pyval :=
  l <-- items values ;;
  match l with
  | [] => Raise ValueError
  | x :: r => greatest x r
  end.

(** [x in container], for a dict (its keys), a list or a tuple. *)
Definition contains (x container : pyval) : result bool :=
  l <-- items container ;; Ok (existsb (eq x) l).

(** [x in range(n)]. *)
Definition in_range (x : pyval) (n : nat) : bool :=
  existsb (fun i => eq x (PyInt (Z.of_nat i))) (seq 0 n).

(** [len(container)]. *)
Definition len (v : pyval) : result nat :=
  match v with
  | PyStr s => Ok (String.length s)
  | _ => l <-- items v ;; Ok (List.length l)
  end.

(** [d.get(k)] is [lookup d k] with [None] read as Python's [None];
    [d[k]] raises [KeyError] there. *)
Fixpoint lookup (d : list (pyval * pyval)) (k : pyval) : option pyval :=
  match d with
  | [] => None
  | (k', v) :: r => if eq k' k then Some v else lookup r k
  end.

Definition dict_get (d k : pyval) : result pyval :=
  match d with
  | PyDict kvs => Ok (match lookup kvs k with Some v => v | None => PyNone end)
  | _ => Raise AttributeError
  end.

(** [seq.index(value)]. *)
Fixpoint index_from (i : Z) (l : list pyval) (x : pyval) : result pyval :=
  match l with
  | [] => Raise ValueError
  | y :: r => if eq y x then Ok (PyInt i) else index_from (i + 1) r x
  end.

(** [y[i]] for a non-negative literal index. *)
Definition getitem (y : pyval) (i : nat) : result pyval :=
  match y with
  | PyList l | PyTuple l =>
      match nth_error l i with Some v => Ok v | None => Raise IndexError end
  | PyStr s =>
      match String.get i s with
      | Some c => Ok (PyStr (String c EmptyString))
      | None => Raise IndexError
      end
  | PyDict d =>
      match lookup d (PyInt (Z.of_nat i)) with Some v => Ok v | None => Raise KeyError end
  | _ => Raise TypeError
  end.

(** [y.replace(old, "")] for a one-character [old]; only [str] has the
    method. *)
Definition replace (y : pyval) (old : ascii) : result pyval :=
  match y with
  | PyStr s => Ok (PyStr (remove_char old s))
  | _ => Raise AttributeError
  end.

Definition float_of_int (z : Z) : result float :=
  let a := if z =? 0 then zero else of_ratio (Z.abs z) 1 in
  if is_infinity a then Raise OverflowError
  else Ok (if z <? 0 then PrimFloat.opp a else a).

(** [float(x)]. *)
Definition to_float (x : pyval) : result pyval :=
  match x with
  | PyStr s =>
      match float_of_str s with
      | Some f => Ok (PyFloat f)
      | None => Raise ValueError
      end
  | PyFloat f => Ok (PyFloat f)
  | PyInt z => f <-- float_of_int z ;; Ok (PyFloat f)
  | PyBool b => Ok (PyFloat (if b then one else zero))
  | _ => Raise TypeError
  end.

(** [int(f)] of a float: towards zero. *)
Definition int_of_float (f : float) : result Z :=
  match Prim2SF f with
  | S754_nan => Raise ValueError
  | S754_infinity _ => Raise OverflowError
  | S754_zero _ => Ok 0
  | S754_finite s m e =>
      let a := Zpos m * 2 ^ Z.max 0 e / 2 ^ Z.max 0 (- e) in
      Ok (if s then - a else a)
  end.

(** One conversion of a [%]-format.  [%s] renders strings only: the one
    [%s] of this driver receives a token of the channel table. *)
Definition convert (c : ascii) (a : pyval) : result string :=
  if Ascii.eqb c "s" then
    match a with PyStr s => Ok s | _ => Raise TypeError end
  else if Ascii.eqb c "d" then
    match a with
    | PyInt z => Ok (format_d z)
    | PyBool b => Ok (format_d (Z.b2z b))
    | PyFloat f => z <-- int_of_float f ;; Ok (format_d z)
    | _ => Raise TypeError
    end
  else if Ascii.eqb c "g" then
    match a with
    | PyFloat f => Ok (format_g f)
    | PyInt z => f <-- float_of_int z ;; Ok (format_g f)
    | PyBool b => Ok (format_g (if b then one else zero))
    | _ => Raise TypeError
    end
  else Raise ValueError.

Fixpoint format_args (fmt : string) (args : list pyval) : result string :=
  match fmt with
  | EmptyString =>
      match args with [] => Ok EmptyString | _ => Raise TypeError end
  | String "%" EmptyString => Raise ValueError
  | String "%" (String c r) =>
      if Ascii.eqb c "%" then
        rest <-- format_args r args ;; Ok (String "%" rest)
      else
        match args with
        | [] => Raise TypeError
        | a :: args' =>
            txt <-- convert c a ;;
            rest <-- format_args r args' ;;
            Ok (txt ++ rest)
        end
  | String c r => rest <-- format_args r args ;; Ok (String c rest)
  end.

(** [fmt % arg], with the conversions [%s], [%d], [%g] and [%%]. *)
Definition format (fmt : string) (arg : pyval) : result string :=
  format_args fmt (match arg with PyTuple l => l | _ => [arg] end).

End Py.

(** * The transport collaborator and the driver's state *)

(** The instrument behind the serial link: a blocking [write(command)] and
    a blocking [query(command) -> response].  [D] is whatever state the
    far end keeps. *)
Class Transport (D : Type) : Type := {
  transport_write : string -> D -> D;
  transport_query : string -> D -> string * D;
}.

(** What an observer of the driver sees: transport calls and pauses. *)
Inductive event : Type :=
| Write (command : string)
| Query (command response : string)
| Sleep (seconds : float).

(** A driver object: the attributes assigned on [self], the far end of its
    transport, and the events so far (oldest first). *)
Record instance (D : Type) : Type := {
  attrs : list (string * pyval);
  link : D;
  log : list event;
}.
Arguments attrs {D} _.
Arguments link {D} _.
Arguments log {D} _.

(** A method body: it runs on a driver object and returns or raises; the
    object keeps every change made before a raise. *)
Definition M (D A : Type) : Type := instance D -> result A * instance D.

Definition ret {D A : Type} (a : A) : M D A := fun st => (Ok a, st).

Definition raise {D A : Type} (e : exn) : M D A := fun st => (Raise e, st).

Definition lift {D A : Type} (r : result A) : M D A := fun st => (r, st).

Definition bind {D A B : Type} (m : M D A) (k : A -> M D B) : M D B :=
  fun st =>
    match m st with
    | (Ok a, st') => k a st'
    | (Raise e, st') => (Raise e, st')
    end.

Notation "x <- m ;; k" := (bind m (fun x => k))
  (at level 61, m at next level, right associativity).

Fixpoint getattr (a : list (string * pyval)) (n : string) : option pyval :=
  match a with
  | [] => None
  | (n', v) :: r => if String.eqb n' n then Some v else getattr r n
  end.

Fixpoint setattr (a : list (string * pyval)) (n : string) (v : pyval)
  : list (string * pyval) :=
  match a with
  | [] => [(n, v)]
  | (n', v') :: r =>
      if String.eqb n' n then (n, v) :: r else (n', v') :: setattr r n v
  end.

(** [self.<n> = v]. *)
Definition assign {D : Type} (n : string) (v : pyval) : M D unit :=
  fun st => (Ok tt, {| attrs := setattr (attrs st) n v; link := link st; log := log st |}).

(** [time.sleep(seconds)]. *)
Definition sleep {D : Type} (seconds : float) : M D unit :=
  fun st => (Ok tt, {| attrs := attrs st; link := link st; log := log st ++ [Sleep seconds] |}).

(** * Validators *)

(** Modelled from the spec: [truncated_range] of
    [pymeasure.instruments.validators], which is not among the sources; the
    property table gives it as "numeric, truncated to configurable
    [min,max]": a value inside the range is kept, one outside is replaced by
    the nearer bound. *)
Definition truncated_range (value values : pyval) : result pyval :=
  lo <-- Py.min values ;;
  hi <-- Py.max values ;;
  a <-- Py.le lo value ;;
  b <-- (if a then Py.le value hi else Ok false) ;;
  if b then Ok value
  else
    c <-- Py.lt hi value ;;
    if c then Ok hi else Ok lo.

(** Modelled from the spec: [strict_discrete_set] of
    [pymeasure.instruments.validators], which is not among the sources: the
    value is "validated against the fixed enumeration" and the set "fails
    with ValidationError when the value is outside the declared set". *)
Definition strict_discrete_set (value values : pyval) : result pyval :=
  b <-- Py.contains value values ;;
  if b then Ok value else Raise ValidationError.

(** * Properties of an instrument *)

Module Property.

(** The arguments of one [Instrument.control(...)] or
    [Instrument.measurement(...)] declaration ([name] is the attribute it
    is bound to; a measurement has no [set_command]). *)
Record t : Type := {
  name : string;
  get_command : string;
  set_command : option string;
  validator : pyval -> pyval -> result pyval;
  values : pyval;
  map_values : bool;
  get_process : pyval -> result pyval;
  dynamic : bool;
}.

End Property.

Module Instrument.

Section Base.
Context {D : Type} {T : Transport D}.

(** Modelled from the spec: the [write] and [ask] entry points of the
    [Instrument] base class, which is not among the sources, over the
    transport's [write(command)] and [query(command) -> response]. *)
Definition write (command : string) : M D unit :=
  fun st =>
    (Ok tt, {| attrs := attrs st;
               link := transport_write command (link st);
               log := log st ++ [Write command] |}).

Definition ask (command : string) : M D string :=
  fun st =>
    let (response, d) := transport_query command (link st) in
    (Ok response, {| attrs := attrs st; link := d;
                     log := log st ++ [Query command response] |}).

(** Modelled from the spec: the cast that [Instrument.values] of the base
    class (not among the sources) applies to each item of a response: the
    item is read as a float where it is one ("parses the response per its
    declared type") and stays a string otherwise. *)
Definition cast (item : string) : pyval :=
  match Py.float_of_str item with
  | Some f => PyFloat f
  | None => PyStr item
  end.

(** Modelled from the spec: [Instrument.values] of the base class, not among
    the sources: the query is issued, the response stripped and split at
    commas, and each item cast. *)
Definition values (command : string) : M D (list pyval) :=
  response <- ask command ;;
  ret (map cast (Py.split "," (Py.strip response))).

(** Modelled from the spec: the dynamic properties of the base class (not
    among the sources), whose "ranges ... are overridable per call
    (dynamic)": the [values] in force are those of the attribute
    [<name>_values] of the object when it has been assigned, and the
    declared ones otherwise. *)
Definition values_in_force (p : Property.t) : M D pyval :=
  fun st =>
    (Ok (if Property.dynamic p then
           match getattr (attrs st) (Property.name p ++ "_values") with
           | Some v => v
           | None => Property.values p
           end
         else Property.values p), st).

(** [values[int(value)]], the caller value of a wire value under a list
    or tuple value map. *)
Definition item_at (l : list pyval) (value : pyval) : result pyval :=
  i <-- match value with
        | PyInt z => Ok z
        | PyBool b => Ok (Z.b2z b)
        | PyFloat f => Py.int_of_float f
        | PyStr _ => Raise ValueError
        | _ => Raise TypeError
        end ;;
  let j := if i <? 0 then i + Z.of_nat (List.length l) else i in
  if j <? 0 then Raise IndexError
  else match nth_error l (Z.to_nat j) with
       | Some v => Ok v
       | None => Raise IndexError
       end.

(** The key of the first entry of a dict whose value [== value], the
    caller value of a wire value under a dict value map. *)
Fixpoint key_of (d : list (pyval * pyval)) (value : pyval) : result pyval :=
  match d with
  | [] => Raise KeyError
  | (k, v) :: r => if Py.eq v value then Ok k else key_of r value
  end.

(** Modelled from the spec: the getter that [Instrument.control] and
    [Instrument.measurement] of the base class (not among the sources)
    build: "get issues the query command and parses/returns the response
    per its declared type and processing rule", a value map being applied
    from wire value to caller value. *)
Definition fget (p : Property.t) : M D pyval :=
  vs <- values_in_force p ;;
  vals <- values (Property.get_command p) ;;
  match vals with
  | [v] =>
      value <- lift (Property.get_process p v) ;;
      if negb (Property.map_values p) then ret value
      else
        match vs with
        | PyList l | PyTuple l => lift (item_at l value)
        | PyDict d => lift (key_of d value)
        | _ => raise ValueError
        end
  | _ => lift (Property.get_process p (PyList vals))
  end.

(** Modelled from the spec: the setter that [Instrument.control] builds:
    "set validates the input against its validator/range (where declared)
    before formatting and issuing the write command", a value map being
    applied from caller value to wire value. *)
Definition fset (p : Property.t) (value : pyval) : M D unit :=
  match Property.set_command p with
  | None => raise LookupError
  | Some set_command =>
      vs <- values_in_force p ;;
      value <- lift (Property.validator p value vs) ;;
      value <- (if negb (Property.map_values p) then ret value
                else
                  match vs with
                  | PyList l | PyTuple l => lift (Py.index_from 0 l value)
                  | PyDict d =>
                      match Py.lookup d value with
                      | Some v => ret v
                      | None => raise KeyError
                      end
                  | _ => raise ValueError
                  end) ;;
      command <- lift (Py.format set_command value) ;;
      write command
  end.

End Base.

(** [Instrument.control(get_command, set_command, docs, ...)] with the
    defaults of its keyword arguments. *)
Definition control (name get_command set_command : string)
    (validator : pyval -> pyval -> result pyval) (values : pyval)
    (map_values : bool) (get_process : pyval -> result pyval) (dynamic : bool)
  : Property.t :=
  {| Property.name := name;
     Property.get_command := get_command;
     Property.set_command := Some set_command;
     Property.validator := validator;
     Property.values := values;
     Property.map_values := map_values;
     Property.get_process := get_process;
     Property.dynamic := dynamic |}.

(** [Instrument.measurement(get_command, docs)]. *)
Definition measurement (name get_command : string) : Property.t :=
  {| Property.name := name;
     Property.get_command := get_command;
     Property.set_command := None;
     Property.validator := fun v _ => Ok v;
     Property.values := PyTuple [];
     Property.map_values := false;
     Property.get_process := Ok;
     Property.dynamic := false |}.

End Instrument.

(** * The HP E3631A triple output DC power supply *)

Module HPE3631A.

Definition dquote : ascii := "034".

Definition vers : Property.t :=
  Instrument.measurement "vers" "SYST:VERS?".

Definition set_output_on : Property.t :=
  Instrument.control "set_output_on" "OUTPut?" "OUTPut %d"
    strict_discrete_set
    (PyDict [(PyBool true, PyInt 1); (PyBool false, PyInt 0)])
    true Ok false.

Definition voltage_setpoint : Property.t :=
  Instrument.control "voltage_setpoint" ":SOUR:VOLT?" ":SOUR:VOLT %g"
    truncated_range
    (PyTuple [PyInt 0; PyFloat 6.18])
    false Ok true.

Definition current_limit : Property.t :=
  Instrument.control "current_limit" ":SOUR:CURR?" ":SOUR:CURR %g"
    truncated_range
    (PyTuple [PyInt 0; PyFloat 5.15])
    false Ok true.

Definition voltage : Property.t :=
  Instrument.measurement "voltage" ":MEAS:VOLT?".

Definition current : Property.t :=
  Instrument.measurement "current" ":MEAS:CURR?".

(** The [get_process] of [applied], a lambda on the items [y] of the
    response: [y[0]] and [y[1]], each with its double quotes replaced by
    nothing and then given to [float], as a tuple. *)
Definition applied_get_process (y : pyval) : result pyval :=
  y0 <-- Py.getitem y 0 ;;
  s0 <-- Py.replace y0 dquote ;;
  f0 <-- Py.to_float s0 ;;
  y1 <-- Py.getitem y 1 ;;
  s1 <-- Py.replace y1 dquote ;;
  f1 <-- Py.to_float s1 ;;
  Ok (PyTuple [f0; f1]).

Definition applied : Property.t :=
  Instrument.control "applied" ":APPly?" ":APPly %g,%g"
    (fun v _ => Ok v) (PyTuple [])
    false applied_get_process false.

Definition _output_ch : pyval :=
  PyDict [(PyInt 0, PyStr "P6V"); (PyInt 1, PyStr "P25V"); (PyInt 2, PyStr "N25V")].

Definition _voltage_range : pyval :=
  PyDict [(PyInt 0, PyTuple [PyInt 0; PyFloat 6.18]);
          (PyInt 1, PyTuple [PyInt 0; PyFloat 25.75]);
          (PyInt 2, PyTuple [PyFloat (-25.75); PyInt 0])].

Definition _current_range : pyval :=
  PyDict [(PyInt 0, PyTuple [PyInt 0; PyFloat 5.15]);
          (PyInt 1, PyTuple [PyInt 0; PyFloat 1.03]);
          (PyInt 2, PyTuple [PyInt 0; PyFloat 1.03])].

Definition select_output : Property.t :=
  Instrument.control "select_output" "INST:SEL?" "INST:SEL %s"
    strict_discrete_set _output_ch
    true Ok false.

Section Methods.
Context {D : Type} {T : Transport D}.

Definition set_remote (lock_local_key : bool) : M D unit :=
  if lock_local_key then Instrument.write "SYST:RWL"
  else Instrument.write "SYST:REM".

Definition set_local : M D unit := Instrument.write "SYST:LOC".

(** [select not in range(len(self._output_ch))] *)
Definition not_a_channel (select : pyval) : M D bool :=
  n <- lift (Py.len _output_ch) ;;
  ret (negb (Py.in_range select n)).

Definition set_current (value select : pyval) : M D unit :=
  bad <- not_a_channel select ;;
  if bad then raise NotImplementedError
  else
    _ <- Instrument.fset select_output select ;;
    r <- lift (Py.dict_get _current_range select) ;;
    _ <- assign "current_limit_values" r ;;
    Instrument.fset current_limit value.

Definition set_voltage (value select : pyval) : M D unit :=
  bad <- not_a_channel select ;;
  if bad then raise NotImplementedError
  else
    _ <- Instrument.fset select_output select ;;
    r <- lift (Py.dict_get _voltage_range select) ;;
    _ <- assign "voltage_setpoint_values" r ;;
    Instrument.fset voltage_setpoint value.

Definition meas_current (select : pyval) : M D pyval :=
  bad <- not_a_channel select ;;
  if bad then raise NotImplementedError
  else
    active <- Instrument.fget select_output ;;
    if Py.eq active select then Instrument.fget current
    else
      _ <- Instrument.fset select_output select ;;
      _ <- sleep 0.2 ;;
      Instrument.fget current.

Definition meas_voltage (select : pyval) : M D pyval :=
  bad <- not_a_channel select ;;
  if bad then raise NotImplementedError
  else
    active <- Instrument.fget select_output ;;
    if Py.eq active select then Instrument.fget voltage
    else
      _ <- Instrument.fset select_output select ;;
      _ <- sleep 0.2 ;;
      Instrument.fget voltage.

End Methods.

End HPE3631A.

(** * Text on the wire *)

Module Wire.

(** [s] between double quotes. *)
Definition quoted (s : string) : string :=
  String HPE3631A.dquote (s ++ String HPE3631A.dquote EmptyString).

Fixpoint all_chars (p : ascii -> bool) (s : string) : bool :=
  match s with
  | EmptyString => true
  | String c r => p c && all_chars p r
  end.

(** The characters [%g] writes: digits, point, exponent mark, signs and
    the letters of [inf] and [nan]. *)
Definition numeral_char (c : ascii) : bool :=
  existsb (Ascii.eqb c)
    ["0"; "1"; "2"; "3"; "4"; "5"; "6"; "7"; "8"; "9";
     "."; "e"; "+"; "-"; "i"; "n"; "f"; "a"]%char.

Definition numeral (s : string) : Prop := all_chars numeral_char s = true.

(** The character [c] does not occur in [s]. *)
Definition free_of (c : ascii) (s : string) : Prop :=
  all_chars (fun x => negb (Ascii.eqb x c)) s = true.

Definition is_number (a : pyval) : Prop :=
  match a with
  | PyBool _ | PyInt _ | PyFloat _ => True
  | _ => False
  end.

End Wire.

(** * A simulated supply on the far end of the transport *)

Module Bench.

(** Modelled from the spec: the instrument side of the wire, which no source
    file describes.  One selector register ("every transition is driven
    only by an explicit select_output write; no spontaneous transitions;
    querying select_output never mutates state"), setpoints that "apply to
    whichever channel is currently active" and that a query reads back as
    they were written, an [:APPly?] response of "two comma-separated,
    double-quote-wrapped decimal numbers", and meter readings per output. *)
Record supply : Type := {
  selected : string;
  memory : list (string * string);
  meter : string -> string -> string;
}.

Fixpoint recall (m : list (string * string)) (key : string) : string :=
  match m with
  | [] => "0"
  | (k, v) :: r => if String.eqb k key then v else recall r key
  end.

Definition store (key text : string) (d : supply) : supply :=
  {| selected := selected d;
     memory := (key, text) :: memory d;
     meter := meter d |}.

(** A command line: its header, and its argument after the first space. *)
Fixpoint cut (s : string) : string * string :=
  match s with
  | EmptyString => (EmptyString, EmptyString)
  | String c r =>
      if Ascii.eqb c " " then (EmptyString, r)
      else let (h, a) := cut r in (String c h, a)
  end.

Definition outputs : list string := ["P6V"; "P25V"; "N25V"].

Definition on_write (command : string) (d : supply) : supply :=
  let (h, a) := cut command in
  if String.eqb h "INST:SEL" then
    if existsb (String.eqb a) outputs
    then {| selected := a; memory := memory d; meter := meter d |}
    else d
  else if String.eqb h ":SOUR:VOLT" || String.eqb h ":SOUR:CURR" then
    store (selected d ++ h) a d
  else if String.eqb h ":APPly" then
    match Py.split "," a with
    | [v; c] =>
        store (selected d ++ ":SOUR:CURR") c (store (selected d ++ ":SOUR:VOLT") v d)
    | _ => d
    end
  else if String.eqb h "OUTPut" then store "OUTPut" a d
  else d.

Definition on_query (command : string) (d : supply) : string * supply :=
  (if String.eqb command "INST:SEL?" then selected d
   else if String.eqb command ":SOUR:VOLT?" then
     recall (memory d) (selected d ++ ":SOUR:VOLT")
   else if String.eqb command ":SOUR:CURR?" then
     recall (memory d) (selected d ++ ":SOUR:CURR")
   else if String.eqb command ":APPly?" then
     Wire.quoted (recall (memory d) (selected d ++ ":SOUR:VOLT")) ++ ","
       ++ Wire.quoted (recall (memory d) (selected d ++ ":SOUR:CURR"))
   else if String.eqb command "OUTPut?" then recall (memory d) "OUTPut"
   else if String.eqb command "SYST:VERS?" then "1995.0"
   else meter d (selected d) command,
   d).

#[global] Instance wire : Transport supply :=
  {| transport_write := on_write; transport_query := on_query |}.

(** A supply just switched on: output [P6V] selected, nothing set, the
    meters reading the given texts. *)
Definition fresh (volts amps : string) : supply :=
  {| selected := "P6V";
     memory := [];
     meter := fun _ q => if String.eqb q ":MEAS:VOLT?" then volts else amps |}.

Definition boot (d : supply) : instance supply :=
  {| attrs := []; link := d; log := [] |}.

(** A driver object just created on a supply just switched on. *)
Definition idle : instance supply :=
  boot (fresh "+1.50000000E+00" "+2.00000000E-01").

End Bench.

(** * Scenarios the properties below are stated on *)

Module Scenario.

Section Scenarios.
Context {D : Type} {T : Transport D}.

(** [self.<p> = x] followed by a read of [self.<p>]. *)
Definition set_then_get (p : Property.t) (x : pyval) : M D pyval :=
  _ <- Instrument.fset p x ;; Instrument.fget p.

(** [self.<p> = w] for each [w] of [ws], in order. *)
Fixpoint assign_each (p : Property.t) (ws : list pyval) : M D unit :=
  match ws with
  | [] => ret tt
  | w :: r => _ <- Instrument.fset p w ;; assign_each p r
  end.

End Scenarios.

(** The number of transport calls among the events of a log. *)
Definition transport_calls (evs : list event) : nat :=
  List.length (filter (fun e => match e with Sleep _ => false | _ => true end) evs).

(** The wire text of a setpoint: [value] validated against [values], then
    rendered by [%g]. *)
Definition setpoint_text (values value : pyval) : result string :=
  w <-- truncated_range value values ;; Py.format "%g" w.

End Scenario.


(** * Sequences of calls on the driver *)

Module Session.

(** The calls a user can make on the driver object other than
    [set_voltage]: the mode toggles, [set_current], the two measurement
    methods, and a read of or an assignment to a property. *)
Inductive call : Type :=
| SetRemote (lock_local_key : bool)
| SetLocal
| SetCurrent (value select : pyval)
| MeasCurrent (select : pyval)
| MeasVoltage (select : pyval)
| Read (p : Property.t)
| Assign (p : Property.t) (value : pyval).

Section Calls.
Context {D : Type} {T : Transport D}.

Definition perform (c : call) : M D unit :=
  match c with
  | SetRemote lock_local_key => HPE3631A.set_remote lock_local_key
  | SetLocal => HPE3631A.set_local
  | SetCurrent value select => HPE3631A.set_current value select
  | MeasCurrent select => _ <- HPE3631A.meas_current select ;; ret tt
  | MeasVoltage select => _ <- HPE3631A.meas_voltage select ;; ret tt
  | Read p => _ <- Instrument.fget p ;; ret tt
  | Assign p value => Instrument.fset p value
  end.

(** The calls of [cs] one after the other, up to the first that raises. *)
Fixpoint script (cs : list call) : M D unit :=
  match cs with
  | [] => ret tt
  | c :: r => _ <- perform c ;; script r
  end.

End Calls.

End Session.

(** * Ordered ranges *)

Module Bounds.

(** [(lo, hi)] is a range of two numbers with [lo < hi], as Python
    compares them. *)
Definition ordered (lo hi : pyval) : Prop :=
  Wire.is_number lo /\ Wire.is_number hi /\
  Py.lt hi lo = Ok false /\ Py.lt lo hi = Ok true /\
  Py.le lo lo = Ok true /\ Py.le lo hi = Ok true /\ Py.le hi hi = Ok true.

End Bounds.

(** * Properties *)

Import Wire.

Arguments Py.format_g : simpl never.

Lemma app_empty_r (s : string) : s ++ "" = s.
Proof. induction s as [| c s IH]; cbn; [reflexivity | now rewrite IH]. Qed.

Lemma format_g_float (f : float) : Py.format "%g" (PyFloat f) = Ok (Py.format_g f).
Proof. cbn. now rewrite app_empty_r. Qed.

Lemma cmp_zero_float (v : float) :
  Py.cmp_int_float 0 v =
  match Prim2SF v with
  | S754_nan => None
  | S754_zero _ => Some Eq
  | S754_infinity s | S754_finite s _ _ => Some (if s then Gt else Lt)
  end.
Proof.
  unfold Py.cmp_int_float. destruct (Prim2SF v) as [s | s | | s m e]; try reflexivity.
  f_equal. rewrite Z.mul_0_l.
  assert (0 < 2 ^ Z.max 0 e) by (apply Z.pow_pos_nonneg; lia).
  destruct s.
  - apply Z.compare_gt_iff. pose proof (Pos2Z.neg_is_neg m). nia.
  - apply Z.compare_lt_iff. pose proof (Pos2Z.is_pos m). nia.
Qed.

Lemma num_le_float_zero (v : float) : Py.num_le (inr v) (inl 0) = PrimFloat.leb v 0.
Proof.
  cbn. rewrite cmp_zero_float, FloatAxioms.leb_spec.
  destruct (Prim2SF v) as [s | s | | s m e]; try destruct s; reflexivity.
Qed.

Lemma num_le_zero_float (v : float) : Py.num_le (inl 0) (inr v) = PrimFloat.leb 0 v.
Proof.
  cbn. rewrite cmp_zero_float, FloatAxioms.leb_spec.
  destruct (Prim2SF v) as [s | s | | s m e]; try destruct s; reflexivity.
Qed.

Lemma num_lt_zero_float (v : float) : Py.num_lt (inl 0) (inr v) = PrimFloat.ltb 0 v.
Proof.
  cbn. rewrite cmp_zero_float, FloatAxioms.ltb_spec.
  destruct (Prim2SF v) as [s | s | | s m e]; try destruct s; reflexivity.
Qed.

Lemma num_lt_float_zero (v : float) : Py.num_lt (inr v) (inl 0) = PrimFloat.ltb v 0.
Proof.
  cbn. rewrite cmp_zero_float, FloatAxioms.ltb_spec.
  destruct (Prim2SF v) as [s | s | | s m e]; try destruct s; reflexivity.
Qed.


Lemma is_number_num (a : pyval) : is_number a -> exists n, Py.as_num a = Some n.
Proof. destruct a; cbn; try contradiction; eauto. Qed.

Lemma lt_numbers (a b : pyval) :
  is_number a -> is_number b -> exists r, Py.lt a b = Ok r.
Proof.
  intros [n Hn]%is_number_num [m Hm]%is_number_num.
  unfold Py.lt. rewrite Hn, Hm. eauto.
Qed.

Lemma le_numbers (a b : pyval) :
  is_number a -> is_number b -> exists r, Py.le a b = Ok r.
Proof.
  intros [n Hn]%is_number_num [m Hm]%is_number_num.
  unfold Py.le. rewrite Hn, Hm. eauto.
Qed.

Lemma min_pair (a b : pyval) :
  is_number a -> is_number b ->
  exists lo, Py.min (PyTuple [a; b]) = Ok lo /\ (lo = a \/ lo = b).
Proof.
  intros Ha Hb. destruct (lt_numbers b a Hb Ha) as [r Hr].
  cbn. rewrite Hr. cbn. destruct r; eauto.
Qed.

Lemma max_pair (a b : pyval) :
  is_number a -> is_number b ->
  exists hi, Py.max (PyTuple [a; b]) = Ok hi /\ (hi = a \/ hi = b).
Proof.
  intros Ha Hb. destruct (lt_numbers a b Ha Hb) as [r Hr].
  cbn. rewrite Hr. cbn. destruct r; eauto.
Qed.

Lemma truncated_range_pair (x a b : pyval) :
  is_number x -> is_number a -> is_number b ->
  exists w, truncated_range x (PyTuple [a; b]) = Ok w /\ (w = x \/ w = a \/ w = b).
Proof.
  intros Hx Ha Hb.
  destruct (min_pair a b Ha Hb) as (lo & Hlo & Hlo').
  destruct (max_pair a b Ha Hb) as (hi & Hhi & Hhi').
  assert (Hnlo : is_number lo) by (destruct Hlo'; subst; assumption).
  assert (Hnhi : is_number hi) by (destruct Hhi'; subst; assumption).
  destruct (le_numbers lo x Hnlo Hx) as [r1 H1].
  destruct (le_numbers x hi Hx Hnhi) as [r2 H2].
  destruct (lt_numbers hi x Hnhi Hx) as [r3 H3].
  unfold truncated_range. rewrite Hlo, Hhi. cbn [rbind]. rewrite H1. cbn [rbind].
  destruct r1; [rewrite H2 |]; cbn [rbind].
  - destruct r2; [eauto |]. rewrite H3; cbn [rbind]. destruct r3; eexists; split; eauto; tauto.
  - rewrite H3; cbn [rbind]. destruct r3; eexists; split; eauto; tauto.
Qed.

(** ** The text [%g] writes *)

Lemma all_chars_app (p : ascii -> bool) (s t : string) :
  all_chars p (s ++ t) = all_chars p s && all_chars p t.
Proof.
  induction s as [| c s IH]; cbn; [reflexivity |].
  now rewrite IH, andb_assoc.
Qed.

Lemma numeral_app (s t : string) : numeral s -> numeral t -> numeral (s ++ t).
Proof. unfold numeral. intros Hs Ht. now rewrite all_chars_app, Hs, Ht. Qed.

Lemma numeral_uint (d : Decimal.uint) :
  numeral (DecimalString.NilEmpty.string_of_uint d).
Proof. unfold numeral. induction d; cbn; auto. Qed.

Lemma numeral_str_of_nat_Z (z : Z) : numeral (Py.str_of_nat_Z z).
Proof.
  unfold Py.str_of_nat_Z, DecimalString.NilZero.string_of_uint.
  destruct (N.to_uint (Z.to_N z)) eqn:E; try (rewrite <- E; apply numeral_uint).
  reflexivity.
Qed.

Lemma numeral_substring (n m : nat) (s : string) :
  numeral s -> numeral (substring n m s).
Proof.
  unfold numeral. revert n m. induction s as [| c s IH]; intros n m H.
  - destruct n, m; reflexivity.
  - cbn [all_chars] in H. apply andb_true_iff in H as [Hc Hs].
    destruct n; cbn [substring].
    + destruct m; cbn [all_chars]; [reflexivity |]. now rewrite Hc, IH.
    + now apply IH.
Qed.

Lemma numeral_strip_zeros (s : string) : numeral s -> numeral (Py.strip_zeros s).
Proof.
  unfold numeral. induction s as [| c s IH]; intros H; [reflexivity |].
  cbn [all_chars] in H. apply andb_true_iff in H as [Hc Hs]. specialize (IH Hs).
  cbn [Py.strip_zeros].
  destruct (Py.strip_zeros s).
  - destruct (Ascii.eqb c "0"); cbn [all_chars]; [reflexivity | now rewrite Hc].
  - cbn [all_chars] in *. now rewrite Hc, IH.
Qed.

Lemma numeral_zeros (n : nat) : numeral (Py.zeros n).
Proof. unfold numeral. induction n; cbn; auto. Qed.

Lemma numeral_with_point (ip frac : string) :
  numeral ip -> numeral frac -> numeral (Py.with_point ip frac).
Proof.
  intros Hi Hf. unfold Py.with_point. destruct frac; [assumption |].
  apply numeral_app; [assumption |]. now apply (numeral_app ".").
Qed.

Lemma numeral_layout_g (ds : string) (x : Z) : numeral ds -> numeral (Py.layout_g ds x).
Proof.
  intros H. unfold Py.layout_g.
  destruct ((-4 <=? x) && (x <? 6)).
  - destruct (0 <=? x).
    + apply numeral_with_point;
        [apply numeral_substring | apply numeral_strip_zeros, numeral_substring]; assumption.
    + apply (numeral_app "0."); [reflexivity |].
      apply numeral_app; [apply numeral_zeros | now apply numeral_strip_zeros].
  - apply numeral_app.
    + apply numeral_with_point;
        [apply numeral_substring | apply numeral_strip_zeros, numeral_substring]; assumption.
    + apply (numeral_app "e"); [reflexivity |].
      apply numeral_app; [now destruct (x <? 0) |].
      destruct (Z.abs x <? 10);
        [apply (numeral_app "0"); [reflexivity |] |]; apply numeral_str_of_nat_Z.
Qed.

Lemma numeral_format_g (f : float) : numeral (Py.format_g f).
Proof.
  unfold Py.format_g.
  destruct (Prim2SF f) as [s | s | | s m e]; try (destruct s; reflexivity); try reflexivity.
  cbv zeta.
  match goal with
  | |- numeral (if s then "-" ++ ?b else ?b) =>
      assert (Hb : numeral b)
  end.
  { match goal with |- numeral (if ?c then _ else _) => destruct c end;
      apply numeral_layout_g, numeral_str_of_nat_Z. }
  destruct s; [apply (numeral_app "-"); [reflexivity | assumption] | assumption].
Qed.

(** ** Stripping, splitting and unquoting wire text *)

Lemma numeral_char_plain (c : ascii) :
  numeral_char c = true ->
  Py.is_space c = false /\ Ascii.eqb c "," = false /\ Ascii.eqb c HPE3631A.dquote = false.
Proof.
  unfold numeral_char. cbn [existsb]. intros H.
  repeat (apply orb_true_iff in H as [H | H];
          [apply Ascii.eqb_eq in H; subst c; repeat split; reflexivity |]).
  discriminate.
Qed.

Lemma numeral_free_of (c : ascii) (s : string) :
  numeral_char c = false -> numeral s -> free_of c s.
Proof.
  intros Hc. unfold numeral, free_of. induction s as [| a s IH]; [reflexivity |].
  cbn [all_chars]. intros [Ha Hs]%andb_true_iff. rewrite (IH Hs), andb_true_r.
  apply negb_true_iff. destruct (Ascii.eqb_spec a c); [congruence | reflexivity].
Qed.

Lemma numeral_lstrip (s : string) : numeral s -> Py.lstrip s = s.
Proof.
  destruct s as [| c s]; [reflexivity |].
  unfold numeral. cbn [all_chars Py.lstrip]. intros [Hc _]%andb_true_iff.
  now destruct (numeral_char_plain c Hc) as (-> & _).
Qed.

Lemma numeral_rstrip (s : string) : numeral s -> Py.rstrip s = s.
Proof.
  unfold numeral. induction s as [| c s IH]; [reflexivity |].
  cbn [all_chars Py.rstrip]. intros [Hc Hs]%andb_true_iff.
  rewrite (IH Hs). destruct s; [| reflexivity].
  now destruct (numeral_char_plain c Hc) as (-> & _).
Qed.

Lemma numeral_strip (s : string) : numeral s -> Py.strip s = s.
Proof.
  intros H. unfold Py.strip. rewrite (numeral_lstrip s H). now apply numeral_rstrip.
Qed.

Lemma rstrip_keeps_last (s : string) (c : ascii) :
  Py.is_space c = false ->
  Py.rstrip (s ++ String c EmptyString) = s ++ String c EmptyString.
Proof.
  intros Hc. induction s as [| a s IH]; cbn [append Py.rstrip].
  - now rewrite Hc.
  - rewrite IH. destruct s; reflexivity.
Qed.

Lemma free_of_app (c : ascii) (s t : string) :
  free_of c s -> free_of c t -> free_of c (s ++ t).
Proof. unfold free_of. intros Hs Ht. now rewrite all_chars_app, Hs, Ht. Qed.

Lemma split_whole (sep : ascii) (s : string) :
  free_of sep s -> Py.split sep s = [s].
Proof.
  unfold free_of. induction s as [| c s IH]; [reflexivity |].
  cbn [all_chars Py.split]. intros [Hc Hs]%andb_true_iff.
  apply negb_true_iff in Hc. rewrite Hc, (IH Hs). reflexivity.
Qed.

Lemma split_at_first (sep : ascii) (s t : string) :
  free_of sep s -> Py.split sep (s ++ String sep t) = s :: Py.split sep t.
Proof.
  unfold free_of. induction s as [| c s IH]; intros H.
  - cbn [append Py.split]. now rewrite Ascii.eqb_refl.
  - cbn [all_chars] in H. apply andb_true_iff in H as [Hc Hs].
    apply negb_true_iff in Hc. cbn [append Py.split]. rewrite Hc, (IH Hs). reflexivity.
Qed.

Lemma remove_absent (c : ascii) (s : string) :
  free_of c s -> Py.remove_char c s = s.
Proof.
  unfold free_of. induction s as [| a s IH]; [reflexivity |].
  cbn [all_chars Py.remove_char]. intros [Ha Hs]%andb_true_iff.
  apply negb_true_iff in Ha. rewrite Ha, (IH Hs). reflexivity.
Qed.

Lemma remove_app (c : ascii) (s t : string) :
  Py.remove_char c (s ++ t) = Py.remove_char c s ++ Py.remove_char c t.
Proof.
  induction s as [| a s IH]; [reflexivity |].
  cbn [append Py.remove_char]. destruct (Ascii.eqb a c); cbn [append]; now rewrite IH.
Qed.

Lemma unquote_quoted (s : string) :
  free_of HPE3631A.dquote s -> Py.remove_char HPE3631A.dquote (quoted s) = s.
Proof.
  intros H. unfold quoted. cbn [Py.remove_char]. rewrite Ascii.eqb_refl.
  rewrite remove_app, (remove_absent _ _ H). cbn [Py.remove_char].
  rewrite Ascii.eqb_refl. apply app_empty_r.
Qed.

Lemma free_of_quoted (s : string) : free_of "," s -> free_of "," (quoted s).
Proof.
  intros H. unfold quoted.
  change (String HPE3631A.dquote (s ++ String HPE3631A.dquote ""))
    with (String HPE3631A.dquote "" ++ (s ++ String HPE3631A.dquote "")).
  repeat apply free_of_app; try assumption; reflexivity.
Qed.

Lemma quoted_is_no_float (s : string) : Py.float_of_str (quoted s) = None.
Proof.
  unfold Py.float_of_str, Py.strip, quoted.
  cbn [Py.lstrip]. change (Py.is_space HPE3631A.dquote) with false. cbv iota.
  change (String HPE3631A.dquote (s ++ String HPE3631A.dquote ""))
    with ((String HPE3631A.dquote s) ++ String HPE3631A.dquote "").
  rewrite rstrip_keeps_last by reflexivity.
  reflexivity.
Qed.

Lemma string_app_assoc (s t u : string) : (s ++ t) ++ u = s ++ (t ++ u).
Proof. induction s as [| c s IH]; cbn [append]; [reflexivity | now rewrite IH]. Qed.

Lemma strip_bracketed (c1 c2 : ascii) (s : string) :
  Py.is_space c1 = false -> Py.is_space c2 = false ->
  Py.strip (String c1 (s ++ String c2 "")) = String c1 (s ++ String c2 "").
Proof.
  intros H1 H2. unfold Py.strip. cbn [Py.lstrip]. rewrite H1.
  change (String c1 (s ++ String c2 "")) with (String c1 s ++ String c2 "").
  now apply rstrip_keeps_last.
Qed.

Lemma strip_quoted_pair (a b : string) :
  Py.strip (quoted a ++ "," ++ quoted b) = quoted a ++ "," ++ quoted b.
Proof.
  assert (E : quoted a ++ "," ++ quoted b
              = String HPE3631A.dquote
                  ((a ++ String HPE3631A.dquote ("," ++ String HPE3631A.dquote b))
                   ++ String HPE3631A.dquote "")).
  { unfold quoted. cbn [append]. f_equal. rewrite !string_app_assoc. reflexivity. }
  rewrite E. now apply strip_bracketed.
Qed.

Lemma split_quoted_pair (a b : string) :
  free_of "," a -> free_of "," b ->
  Py.split "," (quoted a ++ "," ++ quoted b) = [quoted a; quoted b].
Proof.
  intros Ha Hb. change ("," ++ quoted b) with (String "," (quoted b)).
  rewrite split_at_first by now apply free_of_quoted.
  now rewrite split_whole by now apply free_of_quoted.
Qed.

Lemma cast_quoted (s : string) : Instrument.cast (quoted s) = PyStr (quoted s).
Proof. unfold Instrument.cast. now rewrite quoted_is_no_float. Qed.

Lemma get_process_quoted_pair (a b : string) :
  free_of HPE3631A.dquote a -> free_of HPE3631A.dquote b ->
  HPE3631A.applied_get_process (PyList [PyStr (quoted a); PyStr (quoted b)])
  = (f0 <-- Py.to_float (PyStr a) ;;
     f1 <-- Py.to_float (PyStr b) ;;
     Ok (PyTuple [f0; f1])).
Proof.
  intros Ha Hb. unfold HPE3631A.applied_get_process.
  cbn [Py.getitem nth_error rbind Py.replace].
  rewrite !unquote_quoted by assumption.
  destruct (Py.to_float (PyStr a)); reflexivity.
Qed.

(** ** Running the driver *)

Lemma getattr_setattr (a : list (string * pyval)) (n : string) (v : pyval) :
  getattr (setattr a n v) n = Some v.
Proof.
  induction a as [| [n' v'] a IH]; cbn [setattr getattr].
  - now rewrite String.eqb_refl.
  - destruct (String.eqb n' n) eqn:E; cbn [getattr]; [now rewrite String.eqb_refl |].
    now rewrite E.
Qed.

Lemma getattr_setattr_other (a : list (string * pyval)) (n m : string) (v : pyval) :
  String.eqb n m = false -> getattr (setattr a n v) m = getattr a m.
Proof.
  intros Hnm. induction a as [| [n' v'] a IH]; cbn [setattr getattr].
  - now rewrite Hnm.
  - destruct (String.eqb n' n) eqn:E; cbn [getattr].
    + apply String.eqb_eq in E; subst n'. now rewrite Hnm.
    + now rewrite IH.
Qed.

Lemma valid_channel_cases (c : Z) : 0 <= c < 3 -> c = 0 \/ c = 1 \/ c = 2.
Proof. lia. Qed.

Lemma format_setpoint_volt (w : pyval) (text : string) :
  is_number w -> Py.format "%g" w = Ok text ->
  Py.format ":SOUR:VOLT %g" w = Ok (":SOUR:VOLT " ++ text).
Proof.
  destruct w; try contradiction; intros _; unfold Py.format;
    cbn [Py.format_args Ascii.eqb Bool.eqb rbind];
    destruct (Py.convert "g" _); cbn [rbind]; intros [= <-]; reflexivity.
Qed.

Lemma format_setpoint_curr (w : pyval) (text : string) :
  is_number w -> Py.format "%g" w = Ok text ->
  Py.format ":SOUR:CURR %g" w = Ok (":SOUR:CURR " ++ text).
Proof.
  destruct w; try contradiction; intros _; unfold Py.format;
    cbn [Py.format_args Ascii.eqb Bool.eqb rbind];
    destruct (Py.convert "g" _); cbn [rbind]; intros [= <-]; reflexivity.
Qed.

Lemma format_g_number (w : pyval) (text : string) :
  is_number w -> Py.format "%g" w = Ok text -> numeral text.
Proof.
  destruct w; try contradiction; intros _; unfold Py.format;
    cbn [Py.format_args Py.convert Ascii.eqb Bool.eqb rbind].
  - rewrite app_empty_r. intros [= <-]. apply numeral_format_g.
  - destruct (Py.float_of_int z); cbn [rbind]; [| discriminate].
    rewrite app_empty_r. intros [= <-]. apply numeral_format_g.
  - rewrite app_empty_r. intros [= <-]. apply numeral_format_g.
Qed.

Lemma setpoint_text_total (a b : pyval) (ta tb : string) (v : float) :
  is_number a -> is_number b ->
  Py.format "%g" a = Ok ta -> Py.format "%g" b = Ok tb ->
  exists w text,
    truncated_range (PyFloat v) (PyTuple [a; b]) = Ok w /\ is_number w /\
    Py.format "%g" w = Ok text /\ numeral text /\
    Scenario.setpoint_text (PyTuple [a; b]) (PyFloat v) = Ok text.
Proof.
  intros Ha Hb Hta Htb.
  destruct (truncated_range_pair (PyFloat v) a b I Ha Hb) as (w & Hw & Hcase).
  assert (Hn : is_number w) by (destruct Hcase as [-> | [-> | ->]]; auto; exact I).
  assert (exists text, Py.format "%g" w = Ok text) as [text Htext].
  { destruct Hcase as [-> | [-> | ->]]; eauto. rewrite format_g_float; eauto. }
  exists w, text. repeat split; auto.
  - eapply format_g_number; eauto.
  - unfold Scenario.setpoint_text. now rewrite Hw.
Qed.

Section Driver.
Context {D : Type} {T : Transport D}.

Lemma not_a_channel_int (c : Z) (st : instance D) :
  HPE3631A.not_a_channel (PyInt c) st = (Ok (negb ((0 <=? c) && (c <? 3))), st).
Proof.
  unfold HPE3631A.not_a_channel, bind, lift, ret; cbn.
  do 2 f_equal. f_equal.
  destruct (Z.eqb_spec c 0), (Z.eqb_spec c 1), (Z.eqb_spec c 2); cbn; lia.
Qed.

Lemma not_a_channel_valid (c : Z) (st : instance D) :
  0 <= c < 3 -> HPE3631A.not_a_channel (PyInt c) st = (Ok false, st).
Proof.
  intros H. rewrite not_a_channel_int.
  replace ((0 <=? c) && (c <? 3)) with true; [reflexivity |].
  symmetry. apply andb_true_iff. split; [apply Z.leb_le | apply Z.ltb_lt]; lia.
Qed.

Lemma not_a_channel_invalid (c : Z) (st : instance D) :
  ~ 0 <= c < 3 -> HPE3631A.not_a_channel (PyInt c) st = (Ok true, st).
Proof.
  intros H. rewrite not_a_channel_int.
  replace ((0 <=? c) && (c <? 3)) with false; [reflexivity |].
  symmetry. apply andb_false_iff.
  destruct (Z.leb_spec 0 c); [right; apply Z.ltb_ge; lia | now left].
Qed.

Lemma fset_select_output (c : Z) (st : instance D) :
  0 <= c < 3 ->
  exists tok,
    Py.dict_get HPE3631A._output_ch (PyInt c) = Ok (PyStr tok) /\
    Instrument.fset HPE3631A.select_output (PyInt c) st
    = Instrument.write ("INST:SEL " ++ tok) st.
Proof.
  intros H. destruct (valid_channel_cases c H) as [-> | [-> | ->]];
    eexists; split; reflexivity.
Qed.

(** Assigning a dynamic, range-validated setpoint: the range in force is
    the attribute's, and the command is the format of the validated value. *)
Lemma fset_ranged (p : Property.t) (fmt command : string) (rng value w : pyval)
    (st : instance D) :
  Property.set_command p = Some fmt ->
  Property.validator p = truncated_range ->
  Property.map_values p = false ->
  Property.dynamic p = true ->
  getattr (attrs st) (Property.name p ++ "_values") = Some rng ->
  truncated_range value rng = Ok w ->
  Py.format fmt w = Ok command ->
  Instrument.fset p value st = Instrument.write command st.
Proof.
  intros Hs Hv Hm Hd Ha Hw Hf.
  unfold Instrument.fset, Instrument.values_in_force, bind, lift, ret.
  rewrite Hs, Hd, Ha, Hv, Hw, Hm. cbn [negb]. now rewrite Hf.
Qed.

Lemma fget_state (p : Property.t) (st : instance D) :
  snd (Instrument.fget p st)
  = {| attrs := attrs st;
       link := snd (transport_query (Property.get_command p) (link st));
       log := log st ++ [Query (Property.get_command p)
                           (fst (transport_query (Property.get_command p) (link st)))] |}.
Proof.
  unfold Instrument.fget, Instrument.values_in_force, Instrument.values, Instrument.ask,
    bind, lift, ret, raise.
  destruct (transport_query (Property.get_command p) (link st)) as [r d]. cbn [fst snd].
  destruct (map Instrument.cast (Py.split "," (Py.strip r))) as [| v [| v' l]];
    try reflexivity.
  cbn [attrs link log].
  destruct (Property.get_process p v); [| reflexivity].
  destruct (negb (Property.map_values p)); [reflexivity |].
  match goal with |- context [match ?x with PyNone => _ | _ => _ end] => destruct x end;
    reflexivity.
Qed.

(** C1 (as amended): on a channel index outside {0,1,2} each of the four
    channel-scoped methods raises [NotImplementedError], the generic
    signal, and does so before any transport call: attributes, far end and
    event log are those of the state it started from. *)
Theorem invalid_channel_raises_before_any_command
    (st : instance D) (value : pyval) (c : Z) :
  ~ 0 <= c < 3 ->
  HPE3631A.set_current value (PyInt c) st = (Raise NotImplementedError, st) /\
  HPE3631A.set_voltage value (PyInt c) st = (Raise NotImplementedError, st) /\
  HPE3631A.meas_current (PyInt c) st = (Raise NotImplementedError, st) /\
  HPE3631A.meas_voltage (PyInt c) st = (Raise NotImplementedError, st).
Proof.
  intros H.
  unfold HPE3631A.set_current, HPE3631A.set_voltage, HPE3631A.meas_current,
    HPE3631A.meas_voltage, bind.
  rewrite (not_a_channel_invalid c st H). repeat split; reflexivity.
Qed.

Lemma set_voltage_run (st : instance D) (value : pyval) (c : Z)
    (tok text : string) (rng w : pyval) :
  0 <= c < 3 ->
  Py.dict_get HPE3631A._output_ch (PyInt c) = Ok (PyStr tok) ->
  Py.dict_get HPE3631A._voltage_range (PyInt c) = Ok rng ->
  truncated_range value rng = Ok w -> is_number w -> Py.format "%g" w = Ok text ->
  HPE3631A.set_voltage value (PyInt c) st
  = (Ok tt,
     {| attrs := setattr (attrs st) "voltage_setpoint_values" rng;
        link := transport_write (":SOUR:VOLT " ++ text)
                  (transport_write ("INST:SEL " ++ tok) (link st));
        log := log st ++ [Write ("INST:SEL " ++ tok); Write (":SOUR:VOLT " ++ text)] |}).
Proof.
  intros H Htok Hrng Hw Hnw Hfw.
  destruct (fset_select_output c st H) as (tok' & Htok' & Hsel).
  assert (tok' = tok) by congruence; subst tok'.
  unfold HPE3631A.set_voltage, bind.
  rewrite (not_a_channel_valid c st H), Hsel. unfold Instrument.write at 1.
  unfold lift. rewrite Hrng. cbn [assign attrs link log].
  rewrite fset_ranged with (fmt := ":SOUR:VOLT %g") (command := ":SOUR:VOLT " ++ text)
                           (rng := rng) (w := w);
    try reflexivity;
    [ | apply getattr_setattr | exact Hw | now apply format_setpoint_volt ].
  unfold Instrument.write; cbn [attrs link log]. now rewrite <- List.app_assoc.
Qed.

Lemma set_current_run (st : instance D) (value : pyval) (c : Z)
    (tok text : string) (rng w : pyval) :
  0 <= c < 3 ->
  Py.dict_get HPE3631A._output_ch (PyInt c) = Ok (PyStr tok) ->
  Py.dict_get HPE3631A._current_range (PyInt c) = Ok rng ->
  truncated_range value rng = Ok w -> is_number w -> Py.format "%g" w = Ok text ->
  HPE3631A.set_current value (PyInt c) st
  = (Ok tt,
     {| attrs := setattr (attrs st) "current_limit_values" rng;
        link := transport_write (":SOUR:CURR " ++ text)
                  (transport_write ("INST:SEL " ++ tok) (link st));
        log := log st ++ [Write ("INST:SEL " ++ tok); Write (":SOUR:CURR " ++ text)] |}).
Proof.
  intros H Htok Hrng Hw Hnw Hfw.
  destruct (fset_select_output c st H) as (tok' & Htok' & Hsel).
  assert (tok' = tok) by congruence; subst tok'.
  unfold HPE3631A.set_current, bind.
  rewrite (not_a_channel_valid c st H), Hsel. unfold Instrument.write at 1.
  unfold lift. rewrite Hrng. cbn [assign attrs link log].
  rewrite fset_ranged with (fmt := ":SOUR:CURR %g") (command := ":SOUR:CURR " ++ text)
                           (rng := rng) (w := w);
    try reflexivity;
    [ | apply getattr_setattr | exact Hw | now apply format_setpoint_curr ].
  unfold Instrument.write; cbn [attrs link log]. now rewrite <- List.app_assoc.
Qed.

(** The rows of the static tables for a valid channel: a token and two
    ranges whose bounds are numbers that [%g] renders. *)
Lemma channel_rows (c : Z) :
  0 <= c < 3 ->
  exists tok a b ta tb a' b' ta' tb',
    Py.dict_get HPE3631A._output_ch (PyInt c) = Ok (PyStr tok) /\
    Py.dict_get HPE3631A._voltage_range (PyInt c) = Ok (PyTuple [a; b]) /\
    is_number a /\ is_number b /\
    Py.format "%g" a = Ok ta /\ Py.format "%g" b = Ok tb /\
    Py.dict_get HPE3631A._current_range (PyInt c) = Ok (PyTuple [a'; b']) /\
    is_number a' /\ is_number b' /\
    Py.format "%g" a' = Ok ta' /\ Py.format "%g" b' = Ok tb'.
Proof.
  intros H. destruct (valid_channel_cases c H) as [-> | [-> | ->]];
    do 9 eexists; repeat split; try reflexivity; exact I.
Qed.

(** C2: on a valid channel [set_voltage] and [set_current] write the
    selector (whatever output the instrument has selected), install the
    channel's range from the static table as the property's range, and
    write the setpoint validated against that range, in this order and
    with nothing else. *)
Theorem setpoint_methods_select_install_write
    (st : instance D) (v : float) (c : Z) :
  0 <= c < 3 ->
  exists tok vr cr vtext ctext,
    Py.dict_get HPE3631A._output_ch (PyInt c) = Ok (PyStr tok) /\
    Py.dict_get HPE3631A._voltage_range (PyInt c) = Ok vr /\
    Py.dict_get HPE3631A._current_range (PyInt c) = Ok cr /\
    Scenario.setpoint_text vr (PyFloat v) = Ok vtext /\
    Scenario.setpoint_text cr (PyFloat v) = Ok ctext /\
    HPE3631A.set_voltage (PyFloat v) (PyInt c) st
    = (Ok tt,
       {| attrs := setattr (attrs st) "voltage_setpoint_values" vr;
          link := transport_write (":SOUR:VOLT " ++ vtext)
                    (transport_write ("INST:SEL " ++ tok) (link st));
          log := log st ++ [Write ("INST:SEL " ++ tok);
                            Write (":SOUR:VOLT " ++ vtext)] |}) /\
    HPE3631A.set_current (PyFloat v) (PyInt c) st
    = (Ok tt,
       {| attrs := setattr (attrs st) "current_limit_values" cr;
          link := transport_write (":SOUR:CURR " ++ ctext)
                    (transport_write ("INST:SEL " ++ tok) (link st));
          log := log st ++ [Write ("INST:SEL " ++ tok);
                            Write (":SOUR:CURR " ++ ctext)] |}).
Proof.
  intros H.
  destruct (channel_rows c H)
    as (tok & a & b & ta & tb & a' & b' & ta' & tb' & Htok & Hvr & Ha & Hb & Hta & Htb
        & Hcr & Ha' & Hb' & Hta' & Htb').
  destruct (setpoint_text_total a b ta tb v Ha Hb Hta Htb)
    as (w & vtext & Hw & Hnw & Hfw & _ & Hvt).
  destruct (setpoint_text_total a' b' ta' tb' v Ha' Hb' Hta' Htb')
    as (w' & ctext & Hw' & Hnw' & Hfw' & _ & Hct).
  exists tok, (PyTuple [a; b]), (PyTuple [a'; b']), vtext, ctext.
  repeat split; auto.
  - now apply set_voltage_run with (w := w).
  - now apply set_current_run with (w := w').
Qed.

Lemma fget_unmapped_returns (p : Property.t) (st : instance D) :
  Property.get_process p = Ok -> Property.map_values p = false ->
  exists x, fst (Instrument.fget p st) = Ok x.
Proof.
  intros Hg Hm.
  unfold Instrument.fget, Instrument.values_in_force, Instrument.values, Instrument.ask,
    bind, lift, ret.
  destruct (transport_query (Property.get_command p) (link st)) as [r d].
  rewrite Hg, Hm.
  destruct (map Instrument.cast (Py.split "," (Py.strip r))) as [| v [| v' l]];
    cbn; eauto.
Qed.

Lemma eq_int_refl (c : Z) : Py.eq (PyInt c) (PyInt c) = true.
Proof. cbn. apply Z.eqb_refl. Qed.

(** C3 (as amended): on a valid channel that the selector query reports as
    the active one, [meas_current] and [meas_voltage] make exactly two
    transport round trips, the selector query and then the measurement
    query, with no selection write and no pause, and return the reading. *)
Theorem measure_on_active_channel (st : instance D) (c : Z) :
  0 <= c < 3 ->
  fst (Instrument.fget HPE3631A.select_output st) = Ok (PyInt c) ->
  let sel := transport_query "INST:SEL?" (link st) in
  let amps := transport_query ":MEAS:CURR?" (snd sel) in
  let volts := transport_query ":MEAS:VOLT?" (snd sel) in
  (exists x, fst (HPE3631A.meas_current (PyInt c) st) = Ok x) /\
  snd (HPE3631A.meas_current (PyInt c) st)
  = {| attrs := attrs st; link := snd amps;
       log := log st ++ [Query "INST:SEL?" (fst sel); Query ":MEAS:CURR?" (fst amps)] |} /\
  (exists x, fst (HPE3631A.meas_voltage (PyInt c) st) = Ok x) /\
  snd (HPE3631A.meas_voltage (PyInt c) st)
  = {| attrs := attrs st; link := snd volts;
       log := log st ++ [Query "INST:SEL?" (fst sel); Query ":MEAS:VOLT?" (fst volts)] |}.
Proof.
  intros H Hact sel amps volts.
  pose proof (fget_state HPE3631A.select_output st) as Hst.
  unfold HPE3631A.meas_current, HPE3631A.meas_voltage, bind.
  rewrite (not_a_channel_valid c st H).
  destruct (Instrument.fget HPE3631A.select_output st) as [r st1].
  cbn [fst snd] in Hact, Hst. subst r st1. rewrite eq_int_refl.
  repeat split.
  - apply fget_unmapped_returns; reflexivity.
  - rewrite fget_state. cbn [attrs link log Property.get_command HPE3631A.current
      HPE3631A.select_output Instrument.measurement Instrument.control].
    now rewrite <- List.app_assoc.
  - apply fget_unmapped_returns; reflexivity.
  - rewrite fget_state. cbn [attrs link log Property.get_command HPE3631A.voltage
      HPE3631A.select_output Instrument.measurement Instrument.control].
    now rewrite <- List.app_assoc.
Qed.

(** C4 (as amended): on a valid channel that the selector query reports as
    not the active one, [meas_current] and [meas_voltage] make exactly
    three transport calls, the selector query, the selection write and the
    measurement query, with one pause of 0.2 s between the write and the
    measurement query, and return the reading. *)
Theorem measure_on_other_channel (st : instance D) (c : Z) (active : pyval) :
  0 <= c < 3 ->
  fst (Instrument.fget HPE3631A.select_output st) = Ok active ->
  Py.eq active (PyInt c) = false ->
  exists tok,
    Py.dict_get HPE3631A._output_ch (PyInt c) = Ok (PyStr tok) /\
    let sel := transport_query "INST:SEL?" (link st) in
    let switched := transport_write ("INST:SEL " ++ tok) (snd sel) in
    let amps := transport_query ":MEAS:CURR?" switched in
    let volts := transport_query ":MEAS:VOLT?" switched in
    (exists x, fst (HPE3631A.meas_current (PyInt c) st) = Ok x) /\
    snd (HPE3631A.meas_current (PyInt c) st)
    = {| attrs := attrs st; link := snd amps;
         log := log st ++ [Query "INST:SEL?" (fst sel); Write ("INST:SEL " ++ tok);
                           Sleep 0.2; Query ":MEAS:CURR?" (fst amps)] |} /\
    (exists x, fst (HPE3631A.meas_voltage (PyInt c) st) = Ok x) /\
    snd (HPE3631A.meas_voltage (PyInt c) st)
    = {| attrs := attrs st; link := snd volts;
         log := log st ++ [Query "INST:SEL?" (fst sel); Write ("INST:SEL " ++ tok);
                           Sleep 0.2; Query ":MEAS:VOLT?" (fst volts)] |}.
Proof.
  intros H Hact Hne.
  pose proof (fget_state HPE3631A.select_output st) as Hst.
  destruct (fset_select_output c (snd (Instrument.fget HPE3631A.select_output st)) H)
    as (tok & Htok & Hsel).
  exists tok. split; [exact Htok |]. intros sel switched amps volts.
  unfold HPE3631A.meas_current, HPE3631A.meas_voltage, bind.
  rewrite (not_a_channel_valid c st H).
  destruct (Instrument.fget HPE3631A.select_output st) as [r st1].
  cbn [fst snd] in Hact, Hst, Hsel. subst r. rewrite Hne, Hsel.
  unfold Instrument.write, sleep. subst st1. cbn [attrs link log].
  repeat split.
  - apply fget_unmapped_returns; reflexivity.
  - rewrite fget_state. cbn [attrs link log Property.get_command HPE3631A.current
      HPE3631A.select_output Instrument.measurement Instrument.control].
    now rewrite <- !List.app_assoc.
  - apply fget_unmapped_returns; reflexivity.
  - rewrite fget_state. cbn [attrs link log Property.get_command HPE3631A.voltage
      HPE3631A.select_output Instrument.measurement Instrument.control].
    now rewrite <- !List.app_assoc.
Qed.

Lemma negative_range_keeps (v : float) :
  PrimFloat.leb (-25.75) v = true -> PrimFloat.leb v 0 = true ->
  truncated_range (PyFloat v) (PyTuple [PyFloat (-25.75); PyInt 0]) = Ok (PyFloat v).
Proof.
  intros Hlo Hhi. unfold truncated_range.
  change (Py.min (PyTuple [PyFloat (-25.75); PyInt 0])) with (Ok (PyFloat (-25.75))).
  change (Py.max (PyTuple [PyFloat (-25.75); PyInt 0])) with (Ok (PyInt 0)).
  cbn [rbind].
  change (Py.le (PyFloat (-25.75)) (PyFloat v)) with (Ok (PrimFloat.leb (-25.75) v)).
  rewrite Hlo. cbn [rbind].
  change (Py.le (PyFloat v) (PyInt 0)) with (Ok (Py.num_le (inr v) (inl 0))).
  rewrite num_le_float_zero, Hhi. reflexivity.
Qed.

(** C5 (as amended): the setpoint is validated against the range of the
    channel just selected, by truncation: channel 2 transmits any voltage
    of [-25.75, 0] as given, and channel 0 does not reject -1.0 but
    transmits the nearer bound, 0; no error is raised. *)
Theorem setpoint_truncated_to_channel_range (st : instance D) (v : float) :
  PrimFloat.leb (-25.75) v = true -> PrimFloat.leb v 0 = true ->
  HPE3631A.set_voltage (PyFloat v) (PyInt 2) st
  = (Ok tt,
     {| attrs := setattr (attrs st) "voltage_setpoint_values"
                   (PyTuple [PyFloat (-25.75); PyInt 0]);
        link := transport_write (":SOUR:VOLT " ++ Py.format_g v)
                  (transport_write "INST:SEL N25V" (link st));
        log := log st ++ [Write "INST:SEL N25V";
                          Write (":SOUR:VOLT " ++ Py.format_g v)] |}) /\
  HPE3631A.set_voltage (PyFloat (-1)) (PyInt 0) st
  = (Ok tt,
     {| attrs := setattr (attrs st) "voltage_setpoint_values"
                   (PyTuple [PyInt 0; PyFloat 6.18]);
        link := transport_write ":SOUR:VOLT 0" (transport_write "INST:SEL P6V" (link st));
        log := log st ++ [Write "INST:SEL P6V"; Write ":SOUR:VOLT 0"] |}).
Proof.
  intros Hlo Hhi. split.
  - apply set_voltage_run with (tok := "N25V") (w := PyFloat v);
      try reflexivity; try lia; try exact I.
    + now apply negative_range_keeps.
    + apply format_g_float.
  - apply set_voltage_run with (tok := "P6V") (text := "0") (w := PyInt 0);
      try reflexivity; try lia; exact I.
Qed.

Lemma write_run (command : string) (st : instance D) :
  Instrument.write command st
  = (Ok tt, {| attrs := attrs st; link := transport_write command (link st);
               log := log st ++ [Write command] |}).
Proof. reflexivity. Qed.

(** C7: [select_output] maps between channel numbers and wire tokens by
    the table 0-P6V, 1-P25V, 2-N25V in both directions: assigning the
    number writes the token (1 writes [P25V]), and a selector response
    that is the token reads as the number ([N25V] reads as 2). *)
Theorem select_output_maps_by_table (st : instance D) (c : Z) (tok : string) :
  In (c, tok) [(0, "P6V"); (1, "P25V"); (2, "N25V")] ->
  Py.dict_get HPE3631A._output_ch (PyInt c) = Ok (PyStr tok) /\
  Instrument.fset HPE3631A.select_output (PyInt c) st
  = (Ok tt, {| attrs := attrs st;
               link := transport_write ("INST:SEL " ++ tok) (link st);
               log := log st ++ [Write ("INST:SEL " ++ tok)] |}) /\
  (fst (transport_query "INST:SEL?" (link st)) = tok ->
   fst (Instrument.fget HPE3631A.select_output st) = Ok (PyInt c)).
Proof.
  intros Hin.
  assert ((c = 0 /\ tok = "P6V") \/ (c = 1 /\ tok = "P25V") \/ (c = 2 /\ tok = "N25V"))
    as [[-> ->] | [[-> ->] | [-> ->]]].
  { cbn [In] in Hin. destruct Hin as [E | [E | [E | []]]]; inversion E; auto. }
  all: split; [reflexivity |]; split; [reflexivity |]; intros Hq;
    unfold Instrument.fget, Instrument.values_in_force, Instrument.values, Instrument.ask,
      bind, lift, ret;
    cbn [Property.get_command HPE3631A.select_output Instrument.control];
    destruct (transport_query "INST:SEL?" (link st)) as [r d]; cbn [fst] in Hq; subst r;
    reflexivity.
Qed.

Lemma fget_applied_quoted (st : instance D) (a b : string) :
  free_of "," a -> free_of HPE3631A.dquote a ->
  free_of "," b -> free_of HPE3631A.dquote b ->
  fst (transport_query ":APPly?" (link st)) = quoted a ++ "," ++ quoted b ->
  fst (Instrument.fget HPE3631A.applied st)
  = (f0 <-- Py.to_float (PyStr a) ;;
     f1 <-- Py.to_float (PyStr b) ;;
     Ok (PyTuple [f0; f1])).
Proof.
  intros Hca Hqa Hcb Hqb Hq.
  unfold Instrument.fget, Instrument.values_in_force, Instrument.values, Instrument.ask,
    bind, lift, ret.
  cbn [Property.get_command HPE3631A.applied Instrument.control].
  destruct (transport_query ":APPly?" (link st)) as [r d]. cbn [fst] in Hq. subst r.
  rewrite strip_quoted_pair, split_quoted_pair by assumption.
  cbn [map]. rewrite !cast_quoted.
  cbn [Property.get_process]. cbn [fst].
  now apply get_process_quoted_pair.
Qed.

(** C8: reading [applied] turns a response of two comma-separated decimal
    numbers, each between double quotes, into the pair of the two floats
    (the response with 1.500 and 0.200 into (1.5, 0.2)). *)
Theorem applied_reads_quoted_pair (st : instance D) (a b : string) (x y : float) :
  free_of "," a -> free_of HPE3631A.dquote a ->
  free_of "," b -> free_of HPE3631A.dquote b ->
  Py.float_of_str a = Some x -> Py.float_of_str b = Some y ->
  fst (transport_query ":APPly?" (link st)) = quoted a ++ "," ++ quoted b ->
  fst (Instrument.fget HPE3631A.applied st) = Ok (PyTuple [PyFloat x; PyFloat y]).
Proof.
  intros Hca Hqa Hcb Hqb Hx Hy Hq.
  rewrite (fget_applied_quoted st a b) by assumption.
  cbn [Py.to_float]. now rewrite Hx, Hy.
Qed.

Lemma assign_each_ranged (p : Property.t) (fmt prefix : string)
    (a b : pyval) (ta tb : string) (ws : list float) :
  Property.set_command p = Some fmt ->
  Property.validator p = truncated_range ->
  Property.map_values p = false ->
  Property.dynamic p = true ->
  is_number a -> is_number b ->
  Py.format "%g" a = Ok ta -> Py.format "%g" b = Ok tb ->
  (forall w text, is_number w -> Py.format "%g" w = Ok text ->
                  Py.format fmt w = Ok (prefix ++ text)) ->
  forall st : instance D,
    getattr (attrs st) (Property.name p ++ "_values") = Some (PyTuple [a; b]) ->
    exists texts,
      Forall2 (fun w t => Scenario.setpoint_text (PyTuple [a; b]) (PyFloat w) = Ok t)
        ws texts /\
      Scenario.assign_each p (map PyFloat ws) st
      = (Ok tt,
         {| attrs := attrs st;
            link := fold_left (fun d t => transport_write (prefix ++ t) d) texts (link st);
            log := log st ++ map (fun t => Write (prefix ++ t)) texts |}).
Proof.
  intros Hs Hv Hm Hd Ha Hb Hta Htb Hfmt.
  induction ws as [| w ws IH]; intros st Hattr.
  - exists []. split; [constructor |]. cbn. unfold ret. rewrite List.app_nil_r.
    now destruct st.
  - destruct (setpoint_text_total a b ta tb w Ha Hb Hta Htb)
      as (x & text & Hx & Hnx & Hfx & _ & Htext).
    cbn [map Scenario.assign_each]. unfold bind.
    rewrite fset_ranged with (fmt := fmt) (command := prefix ++ text)
                             (rng := PyTuple [a; b]) (w := x); auto.
    rewrite write_run.
    destruct (IH {| attrs := attrs st;
                    link := transport_write (prefix ++ text) (link st);
                    log := log st ++ [Write (prefix ++ text)] |} Hattr)
      as (texts & Hall & Hrun).
    exists (text :: texts). split; [now constructor |].
    rewrite Hrun. cbn [attrs link log fold_left map]. now rewrite <- List.app_assoc.
Qed.

(** C10: the range that [set_voltage] ([set_current]) installs for its
    channel stays the range of [voltage_setpoint] ([current_limit]) after
    the call: every later direct assignment to the property, however many,
    is validated against that channel's range and leaves it installed;
    a [set_voltage] for another channel does not disturb the range
    [set_current] installed. *)
Theorem installed_range_outlives_the_call
    (st : instance D) (v v' : float) (c c' : Z) (ws : list float) :
  0 <= c < 3 -> 0 <= c' < 3 ->
  exists vr cr vtexts ctexts,
    Py.dict_get HPE3631A._voltage_range (PyInt c) = Ok vr /\
    Py.dict_get HPE3631A._current_range (PyInt c) = Ok cr /\
    Forall2 (fun w t => Scenario.setpoint_text vr (PyFloat w) = Ok t) ws vtexts /\
    Forall2 (fun w t => Scenario.setpoint_text cr (PyFloat w) = Ok t) ws ctexts /\
    (let s := snd (HPE3631A.set_voltage (PyFloat v) (PyInt c) st) in
     Scenario.assign_each HPE3631A.voltage_setpoint (map PyFloat ws) s
     = (Ok tt,
        {| attrs := attrs s;
           link := fold_left (fun d t => transport_write (":SOUR:VOLT " ++ t) d)
                     vtexts (link s);
           log := log s ++ map (fun t => Write (":SOUR:VOLT " ++ t)) vtexts |})) /\
    (let s := snd (HPE3631A.set_current (PyFloat v) (PyInt c) st) in
     Scenario.assign_each HPE3631A.current_limit (map PyFloat ws) s
     = (Ok tt,
        {| attrs := attrs s;
           link := fold_left (fun d t => transport_write (":SOUR:CURR " ++ t) d)
                     ctexts (link s);
           log := log s ++ map (fun t => Write (":SOUR:CURR " ++ t)) ctexts |})) /\
    (let s := snd (HPE3631A.set_voltage (PyFloat v') (PyInt c')
                     (snd (HPE3631A.set_current (PyFloat v) (PyInt c) st))) in
     getattr (attrs s) "current_limit_values" = Some cr).
Proof.
  intros H H'.
  destruct (channel_rows c H)
    as (tok & a & b & ta & tb & a' & b' & ta' & tb' & Htok & Hvr & Ha & Hb & Hta & Htb
        & Hcr & Ha' & Hb' & Hta' & Htb').
  destruct (setpoint_text_total a b ta tb v Ha Hb Hta Htb)
    as (w & vtext & Hw & Hnw & Hfw & _ & _).
  destruct (setpoint_text_total a' b' ta' tb' v Ha' Hb' Hta' Htb')
    as (w' & ctext & Hw' & Hnw' & Hfw' & _ & _).
  pose proof (set_voltage_run st (PyFloat v) c tok vtext _ w H Htok Hvr Hw Hnw Hfw) as Hsv.
  pose proof (set_current_run st (PyFloat v) c tok ctext _ w' H Htok Hcr Hw' Hnw' Hfw') as Hsc.
  destruct (assign_each_ranged HPE3631A.voltage_setpoint ":SOUR:VOLT %g" ":SOUR:VOLT "
              a b ta tb ws eq_refl eq_refl eq_refl eq_refl Ha Hb Hta Htb
              format_setpoint_volt
              (snd (HPE3631A.set_voltage (PyFloat v) (PyInt c) st)))
    as (vtexts & Hvall & Hvrun).
  { rewrite Hsv. cbn [snd attrs]. apply getattr_setattr. }
  destruct (assign_each_ranged HPE3631A.current_limit ":SOUR:CURR %g" ":SOUR:CURR "
              a' b' ta' tb' ws eq_refl eq_refl eq_refl eq_refl Ha' Hb' Hta' Htb'
              format_setpoint_curr
              (snd (HPE3631A.set_current (PyFloat v) (PyInt c) st)))
    as (ctexts & Hcall & Hcrun).
  { rewrite Hsc. cbn [snd attrs]. apply getattr_setattr. }
  exists (PyTuple [a; b]), (PyTuple [a'; b']), vtexts, ctexts.
  repeat split; auto.
  cbv zeta.
  destruct (channel_rows c' H')
    as (tok2 & a2 & b2 & ta2 & tb2 & _ & _ & _ & _ & Htok2 & Hvr2 & Ha2 & Hb2 & Hta2 & Htb2 & _).
  destruct (setpoint_text_total a2 b2 ta2 tb2 v' Ha2 Hb2 Hta2 Htb2)
    as (w2 & vtext2 & Hw2 & Hnw2 & Hfw2 & _ & _).
  rewrite (set_voltage_run _ (PyFloat v') c' tok2 vtext2 _ w2 H' Htok2 Hvr2 Hw2 Hnw2 Hfw2).
  cbn [snd attrs]. rewrite getattr_setattr_other by reflexivity.
  rewrite Hsc. cbn [snd attrs]. apply getattr_setattr.
Qed.

End Driver.

(** ** Instruments that keep a selector register *)

Lemma fget_select_output_reply {D : Type} {T : Transport D} (st st' : instance D) :
  fst (transport_query "INST:SEL?" (link st))
  = fst (transport_query "INST:SEL?" (link st')) ->
  fst (Instrument.fget HPE3631A.select_output st)
  = fst (Instrument.fget HPE3631A.select_output st').
Proof.
  intros E.
  unfold Instrument.fget, Instrument.values_in_force, Instrument.values, Instrument.ask,
    bind, lift, ret, raise.
  cbn [Property.dynamic Property.get_command Property.values HPE3631A.select_output
       Instrument.control].
  destruct (transport_query "INST:SEL?" (link st)) as [r d].
  destruct (transport_query "INST:SEL?" (link st')) as [r' d'].
  cbn [fst] in E. subst r'.
  destruct (map Instrument.cast (Py.split "," (Py.strip r))) as [| x [| y l]];
    reflexivity.
Qed.

Lemma fget_select_output_int {D : Type} {T : Transport D}
    (st : instance D) (active : pyval) (c : Z) :
  fst (Instrument.fget HPE3631A.select_output st) = Ok active ->
  Py.eq active (PyInt c) = true -> active = PyInt c.
Proof.
  unfold Instrument.fget, Instrument.values_in_force, Instrument.values, Instrument.ask,
    bind, lift, ret, raise, HPE3631A.select_output, Instrument.control.
  cbn [Property.dynamic Property.get_command Property.values Property.get_process
       Property.map_values negb].
  destruct (transport_query "INST:SEL?" (link st)) as [r d].
  destruct (map Instrument.cast (Py.split "," (Py.strip r))) as [| x [| y l]];
    cbn [fst]; try (intros [= <-]; discriminate).
  cbn [HPE3631A._output_ch Instrument.key_of].
  destruct (Py.eq (PyStr "P6V") x);
    [intros [= <-] E; f_equal; change ((0 =? c) = true) in E; now apply Z.eqb_eq in E |].
  destruct (Py.eq (PyStr "P25V") x);
    [intros [= <-] E; f_equal; change ((1 =? c) = true) in E; now apply Z.eqb_eq in E |].
  destruct (Py.eq (PyStr "N25V") x);
    [intros [= <-] E; f_equal; change ((2 =? c) = true) in E; now apply Z.eqb_eq in E |].
  discriminate.
Qed.

Lemma fget_select_output_token {D : Type} {T : Transport D}
    (st : instance D) (c : Z) (tok : string) :
  0 <= c < 3 ->
  Py.dict_get HPE3631A._output_ch (PyInt c) = Ok (PyStr tok) ->
  fst (transport_query "INST:SEL?" (link st)) = tok ->
  fst (Instrument.fget HPE3631A.select_output st) = Ok (PyInt c).
Proof.
  intros H Htok Hq.
  unfold Instrument.fget, Instrument.values_in_force, Instrument.values, Instrument.ask,
    bind, lift, ret.
  cbn [Property.get_command HPE3631A.select_output Instrument.control].
  destruct (transport_query "INST:SEL?" (link st)) as [r d]. cbn [fst] in Hq. subst r.
  destruct (valid_channel_cases c H) as [-> | [-> | ->]];
    cbn in Htok; injection Htok as <-; reflexivity.
Qed.

Section Selector.
Context {D : Type} {T : Transport D}.

(** The instrument's selector register, as the driver can observe it: the
    selector query reads it, no query changes it, a selection write of a
    token of the channel table sets it, and a setpoint write leaves it. *)
Variable register : D -> string.
Hypothesis query_reads :
  forall d, fst (transport_query "INST:SEL?" d) = register d.
Hypothesis query_keeps :
  forall command d, register (snd (transport_query command d)) = register d.
Hypothesis selection_sets :
  forall c tok d,
    Py.dict_get HPE3631A._output_ch (PyInt c) = Ok (PyStr tok) ->
    register (transport_write ("INST:SEL " ++ tok) d) = tok.
Hypothesis setpoint_keeps :
  forall text d,
    register (transport_write (":SOUR:VOLT " ++ text) d) = register d /\
    register (transport_write (":SOUR:CURR " ++ text) d) = register d.

Lemma measured_channel_stays (p : Property.t) (st st' : instance D) (c : Z) (x : pyval) :
  0 <= c < 3 ->
  bind (HPE3631A.not_a_channel (PyInt c))
    (fun bad : bool =>
       if bad then raise NotImplementedError
       else bind (Instrument.fget HPE3631A.select_output)
              (fun active =>
                 if Py.eq active (PyInt c) then Instrument.fget p
                 else bind (Instrument.fset HPE3631A.select_output (PyInt c))
                        (fun _ => bind (sleep 0.2) (fun _ => Instrument.fget p)))) st
  = (Ok x, st') ->
  fst (Instrument.fget HPE3631A.select_output st') = Ok (PyInt c).
Proof.
  intros H. unfold bind at 1 2. rewrite (not_a_channel_valid c st H).
  pose proof (fget_state HPE3631A.select_output st) as Hst.
  destruct (Instrument.fget HPE3631A.select_output st) as [[active | e] st1] eqn:E;
    [| discriminate].
  cbn [snd] in Hst.
  destruct (Py.eq active (PyInt c)) eqn:Heq.
  - intros Hrun.
    assert (Hact : fst (Instrument.fget HPE3631A.select_output st) = Ok active)
      by now rewrite E.
    apply (fget_select_output_int st active c Hact) in Heq. subst active.
    rewrite <- Hact. apply fget_select_output_reply.
    pose proof (fget_state p st1) as Hst'. rewrite Hrun in Hst'. cbn [snd] in Hst'.
    rewrite Hst', Hst. cbn [link]. now rewrite !query_reads, !query_keeps.
  - destruct (fset_select_output c st1 H) as (tok & Htok & Hsel).
    unfold bind. rewrite Hsel. unfold Instrument.write, sleep. intros Hrun.
    apply fget_select_output_token with (tok := tok); auto.
    match type of Hrun with
    | Instrument.fget p ?s = _ => pose proof (fget_state p s) as Hst'
    end.
    rewrite Hrun in Hst'. cbn [snd attrs link log] in Hst'.
    rewrite Hst'. cbn [link]. rewrite query_reads, query_keeps.
    now apply selection_sets with (c := c).
Qed.

(** C9: no channel-scoped method restores the output that was selected
    before it: after [set_voltage], [set_current], [meas_voltage] or
    [meas_current] has returned for channel [c], a direct read of
    [select_output] gives [c], whatever the register held before the
    call. *)
Theorem scoped_call_leaves_its_channel_selected
    (st : instance D) (v : float) (c : Z) :
  0 <= c < 3 ->
  (forall st', HPE3631A.set_voltage (PyFloat v) (PyInt c) st = (Ok tt, st') ->
     fst (Instrument.fget HPE3631A.select_output st') = Ok (PyInt c)) /\
  (forall st', HPE3631A.set_current (PyFloat v) (PyInt c) st = (Ok tt, st') ->
     fst (Instrument.fget HPE3631A.select_output st') = Ok (PyInt c)) /\
  (forall x st', HPE3631A.meas_voltage (PyInt c) st = (Ok x, st') ->
     fst (Instrument.fget HPE3631A.select_output st') = Ok (PyInt c)) /\
  (forall x st', HPE3631A.meas_current (PyInt c) st = (Ok x, st') ->
     fst (Instrument.fget HPE3631A.select_output st') = Ok (PyInt c)).
Proof.
  intros H.
  destruct (channel_rows c H)
    as (tok & a & b & ta & tb & a' & b' & ta' & tb' & Htok & Hvr & Ha & Hb & Hta & Htb
        & Hcr & Ha' & Hb' & Hta' & Htb').
  repeat split.
  - intros st'.
    destruct (setpoint_text_total a b ta tb v Ha Hb Hta Htb)
      as (w & text & Hw & Hnw & Hfw & _ & _).
    rewrite (set_voltage_run st (PyFloat v) c tok text _ w H Htok Hvr Hw Hnw Hfw).
    intros [= <-]. apply fget_select_output_token with (tok := tok); auto.
    cbn [link]. rewrite query_reads, (proj1 (setpoint_keeps text _)).
    now apply selection_sets with (c := c).
  - intros st'.
    destruct (setpoint_text_total a' b' ta' tb' v Ha' Hb' Hta' Htb')
      as (w & text & Hw & Hnw & Hfw & _ & _).
    rewrite (set_current_run st (PyFloat v) c tok text _ w H Htok Hcr Hw Hnw Hfw).
    intros [= <-]. apply fget_select_output_token with (tok := tok); auto.
    cbn [link]. rewrite query_reads, (proj2 (setpoint_keeps text _)).
    now apply selection_sets with (c := c).
  - intros x st'. apply (measured_channel_stays HPE3631A.voltage); assumption.
  - intros x st'. apply (measured_channel_stays HPE3631A.current); assumption.
Qed.

End Selector.

(** ** The simulated supply *)

Lemma bench_query_reads (d : Bench.supply) :
  fst (transport_query "INST:SEL?" d) = Bench.selected d.
Proof. reflexivity. Qed.

Lemma bench_query_keeps (command : string) (d : Bench.supply) :
  Bench.selected (snd (transport_query command d)) = Bench.selected d.
Proof. reflexivity. Qed.

Lemma bench_selection_sets (c : Z) (tok : string) (d : Bench.supply) :
  Py.dict_get HPE3631A._output_ch (PyInt c) = Ok (PyStr tok) ->
  Bench.selected (transport_write ("INST:SEL " ++ tok) d) = tok.
Proof.
  unfold Py.dict_get, HPE3631A._output_ch. cbn [Py.lookup].
  change (Py.eq (PyInt 0) (PyInt c)) with (0 =? c).
  change (Py.eq (PyInt 1) (PyInt c)) with (1 =? c).
  change (Py.eq (PyInt 2) (PyInt c)) with (2 =? c).
  destruct (0 =? c); [intros [= <-]; reflexivity |].
  destruct (1 =? c); [intros [= <-]; reflexivity |].
  destruct (2 =? c); [intros [= <-]; reflexivity |].
  discriminate.
Qed.

Lemma bench_setpoint_keeps (text : string) (d : Bench.supply) :
  Bench.selected (transport_write (":SOUR:VOLT " ++ text) d) = Bench.selected d /\
  Bench.selected (transport_write (":SOUR:CURR " ++ text) d) = Bench.selected d.
Proof.
  split; cbn [transport_write Bench.wire]; unfold Bench.on_write;
    cbn [append Bench.cut Ascii.eqb Bool.eqb]; destruct (Bench.cut text); reflexivity.
Qed.

(** ** Instruments that read back what was written *)

Lemma fset_ranged_default {D : Type} {T : Transport D}
    (p : Property.t) (fmt command : string) (value w : pyval) (st : instance D) :
  Property.set_command p = Some fmt ->
  Property.validator p = truncated_range ->
  Property.map_values p = false ->
  getattr (attrs st) (Property.name p ++ "_values") = None ->
  truncated_range value (Property.values p) = Ok w ->
  Py.format fmt w = Ok command ->
  Instrument.fset p value st = Instrument.write command st.
Proof.
  intros Hs Hv Hm Ha Hw Hf.
  unfold Instrument.fset, Instrument.values_in_force, bind, lift, ret.
  rewrite Hs, Ha, Hv, Hm.
  destruct (Property.dynamic p); rewrite Hw; cbn [negb]; now rewrite Hf.
Qed.

Lemma fget_numeral {D : Type} {T : Transport D}
    (p : Property.t) (text : string) (st : instance D) :
  Property.get_process p = Ok -> Property.map_values p = false ->
  numeral text ->
  fst (transport_query (Property.get_command p) (link st)) = text ->
  fst (Instrument.fget p st) = Ok (Instrument.cast text).
Proof.
  intros Hg Hm Hn Hq.
  unfold Instrument.fget, Instrument.values_in_force, Instrument.values, Instrument.ask,
    bind, lift, ret.
  destruct (transport_query (Property.get_command p) (link st)) as [r d].
  cbn [fst] in Hq. subst r.
  rewrite (numeral_strip text Hn).
  rewrite split_whole by (apply numeral_free_of; [reflexivity | assumption]).
  cbn [map]. rewrite Hg, Hm. reflexivity.
Qed.

Section Echo.
Context {D : Type} {T : Transport D}.

(** An instrument that answers each setting query with the text last
    written for that setting, the two numbers of [:APPly] each between
    double quotes. *)
Hypothesis voltage_read_back :
  forall text d,
    fst (transport_query ":SOUR:VOLT?" (transport_write (":SOUR:VOLT " ++ text) d)) = text.
Hypothesis current_read_back :
  forall text d,
    fst (transport_query ":SOUR:CURR?" (transport_write (":SOUR:CURR " ++ text) d)) = text.
Hypothesis output_read_back :
  forall text d,
    fst (transport_query "OUTPut?" (transport_write ("OUTPut " ++ text) d)) = text.
Hypothesis selection_read_back :
  forall text d,
    In text ["P6V"; "P25V"; "N25V"] ->
    fst (transport_query "INST:SEL?" (transport_write ("INST:SEL " ++ text) d)) = text.
Hypothesis applied_read_back :
  forall volts amps d,
    free_of "," volts -> free_of "," amps ->
    fst (transport_query ":APPly?" (transport_write (":APPly " ++ volts ++ "," ++ amps) d))
    = quoted volts ++ "," ++ quoted amps.

(** C6 (as amended): assigning a settable property and reading it back
    gives the value the wire text stands for: the assigned value after the
    property's validation or truncation and after its rendering by the
    write format, [%g] keeping six significant digits.  Channel numbers and
    the output switch come back as assigned; a setpoint comes back as the
    float its text reads as; [voltage_setpoint = 10.0] under the default
    range transmits 6.18 and reads back 6.18. *)
Theorem set_then_get_returns_wire_value (st : instance D) :
  (getattr (attrs st) "voltage_setpoint_values" = None ->
   forall x : float,
   exists text,
     Scenario.setpoint_text (PyTuple [PyInt 0; PyFloat 6.18]) (PyFloat x) = Ok text /\
     log (snd (Instrument.fset HPE3631A.voltage_setpoint (PyFloat x) st))
     = (log st ++ [Write (":SOUR:VOLT " ++ text)])%list /\
     fst (Scenario.set_then_get HPE3631A.voltage_setpoint (PyFloat x) st)
     = Ok (Instrument.cast text)) /\
  (getattr (attrs st) "current_limit_values" = None ->
   forall x : float,
   exists text,
     Scenario.setpoint_text (PyTuple [PyInt 0; PyFloat 5.15]) (PyFloat x) = Ok text /\
     log (snd (Instrument.fset HPE3631A.current_limit (PyFloat x) st))
     = (log st ++ [Write (":SOUR:CURR " ++ text)])%list /\
     fst (Scenario.set_then_get HPE3631A.current_limit (PyFloat x) st)
     = Ok (Instrument.cast text)) /\
  (forall c : Z, 0 <= c < 3 ->
     fst (Scenario.set_then_get HPE3631A.select_output (PyInt c) st) = Ok (PyInt c)) /\
  (forall b : bool,
     fst (Scenario.set_then_get HPE3631A.set_output_on (PyBool b) st) = Ok (PyBool b)) /\
  (forall v a : float,
     fst (Scenario.set_then_get HPE3631A.applied (PyTuple [PyFloat v; PyFloat a]) st)
     = (f0 <-- Py.to_float (PyStr (Py.format_g v)) ;;
        f1 <-- Py.to_float (PyStr (Py.format_g a)) ;;
        Ok (PyTuple [f0; f1]))) /\
  (getattr (attrs st) "voltage_setpoint_values" = None ->
   Scenario.setpoint_text (PyTuple [PyInt 0; PyFloat 6.18]) (PyFloat 10) = Ok "6.18" /\
   log (snd (Instrument.fset HPE3631A.voltage_setpoint (PyFloat 10) st))
   = (log st ++ [Write ":SOUR:VOLT 6.18"])%list /\
   fst (Scenario.set_then_get HPE3631A.voltage_setpoint (PyFloat 10) st)
   = Ok (PyFloat 6.18)).
Proof.
  assert (Hvolt : getattr (attrs st) "voltage_setpoint_values" = None ->
    forall x : float,
    exists text,
      Scenario.setpoint_text (PyTuple [PyInt 0; PyFloat 6.18]) (PyFloat x) = Ok text /\
      log (snd (Instrument.fset HPE3631A.voltage_setpoint (PyFloat x) st))
      = (log st ++ [Write (":SOUR:VOLT " ++ text)])%list /\
      fst (Scenario.set_then_get HPE3631A.voltage_setpoint (PyFloat x) st)
      = Ok (Instrument.cast text)).
  { intros Hattr x.
    destruct (setpoint_text_total (PyInt 0) (PyFloat 6.18) "0" "6.18" x I I eq_refl eq_refl)
      as (w & text & Hw & Hnw & Hfw & Hnum & Htext).
    exists text. split; [exact Htext |].
    assert (Hset : Instrument.fset HPE3631A.voltage_setpoint (PyFloat x) st
                   = Instrument.write (":SOUR:VOLT " ++ text) st).
    { apply fset_ranged_default with (fmt := ":SOUR:VOLT %g") (w := w);
        try reflexivity; auto. now apply format_setpoint_volt. }
    unfold Scenario.set_then_get, bind. rewrite Hset, write_run. cbn [snd log].
    split; [reflexivity |].
    apply fget_numeral; try reflexivity; auto. cbn [link]. apply voltage_read_back. }
  split; [exact Hvolt |].
  split.
  { intros Hattr x.
    destruct (setpoint_text_total (PyInt 0) (PyFloat 5.15) "0" "5.15" x I I eq_refl eq_refl)
      as (w & text & Hw & Hnw & Hfw & Hnum & Htext).
    exists text. split; [exact Htext |].
    assert (Hset : Instrument.fset HPE3631A.current_limit (PyFloat x) st
                   = Instrument.write (":SOUR:CURR " ++ text) st).
    { apply fset_ranged_default with (fmt := ":SOUR:CURR %g") (w := w);
        try reflexivity; auto. now apply format_setpoint_curr. }
    unfold Scenario.set_then_get, bind. rewrite Hset, write_run. cbn [snd log].
    split; [reflexivity |].
    apply fget_numeral; try reflexivity; auto. cbn [link]. apply current_read_back. }
  split.
  { intros c H. unfold Scenario.set_then_get, bind.
    destruct (fset_select_output c st H) as (tok & Htok & Hsel).
    rewrite Hsel, write_run.
    apply fget_select_output_token with (tok := tok); auto.
    cbn [link]. apply selection_read_back.
    destruct (valid_channel_cases c H) as [-> | [-> | ->]];
      cbn in Htok; injection Htok as <-; cbn; auto. }
  split.
  { intros b. unfold Scenario.set_then_get, bind.
    assert (Hset : Instrument.fset HPE3631A.set_output_on (PyBool b) st
                   = Instrument.write ("OUTPut " ++ (if b then "1" else "0")) st)
      by (destruct b; reflexivity).
    rewrite Hset, write_run.
    unfold Instrument.fget, Instrument.values_in_force, Instrument.values, Instrument.ask,
      bind, lift, ret.
    cbn [Property.get_command HPE3631A.set_output_on Instrument.control link].
    pose proof (output_read_back (if b then "1" else "0") (link st)) as Hq.
    destruct (transport_query "OUTPut?" _) as [r d]. cbn [fst] in Hq. subst r.
    destruct b; reflexivity. }
  split.
  { intros v a. unfold Scenario.set_then_get, bind.
    assert (Hset : Instrument.fset HPE3631A.applied (PyTuple [PyFloat v; PyFloat a]) st
                   = Instrument.write (":APPly " ++ Py.format_g v ++ "," ++ Py.format_g a) st).
    { unfold Instrument.fset, bind, lift, ret, Instrument.values_in_force.
      cbn [Property.set_command Property.validator Property.map_values Property.dynamic
           Property.values HPE3631A.applied Instrument.control negb].
      unfold Py.format.
      cbn [Py.format_args Py.convert Ascii.eqb Bool.eqb rbind].
      now rewrite app_empty_r. }
    rewrite Hset, write_run.
    apply fget_applied_quoted;
      try (apply numeral_free_of; [reflexivity | apply numeral_format_g]).
    cbn [link]. apply applied_read_back;
      apply numeral_free_of; try reflexivity; apply numeral_format_g. }
  intros Hattr.
  destruct (Hvolt Hattr 10%float) as (text & Htext & Hlog & Hget).
  assert (text = "6.18") by (vm_compute in Htext; congruence). subst text.
  repeat split; assumption.
Qed.

End Echo.

(** ** The simulated supply reads back what was written *)

Lemma recall_stored (key text : string) (m : list (string * string)) :
  Bench.recall ((key, text) :: m) key = text.
Proof. cbn [Bench.recall]. now rewrite String.eqb_refl. Qed.

Lemma bench_voltage_read_back (text : string) (d : Bench.supply) :
  fst (transport_query ":SOUR:VOLT?" (transport_write (":SOUR:VOLT " ++ text) d)) = text.
Proof. cbn. now rewrite String.eqb_refl. Qed.

Lemma bench_current_read_back (text : string) (d : Bench.supply) :
  fst (transport_query ":SOUR:CURR?" (transport_write (":SOUR:CURR " ++ text) d)) = text.
Proof. cbn. now rewrite String.eqb_refl. Qed.

Lemma bench_output_read_back (text : string) (d : Bench.supply) :
  fst (transport_query "OUTPut?" (transport_write ("OUTPut " ++ text) d)) = text.
Proof. reflexivity. Qed.

Lemma bench_selection_read_back (text : string) (d : Bench.supply) :
  In text ["P6V"; "P25V"; "N25V"] ->
  fst (transport_query "INST:SEL?" (transport_write ("INST:SEL " ++ text) d)) = text.
Proof. intros [<- | [<- | [<- | []]]]; reflexivity. Qed.

Lemma bench_applied_read_back (volts amps : string) (d : Bench.supply) :
  free_of "," volts -> free_of "," amps ->
  fst (transport_query ":APPly?" (transport_write (":APPly " ++ volts ++ "," ++ amps) d))
  = quoted volts ++ "," ++ quoted amps.
Proof.
  intros Hv Ha.
  cbn [transport_write transport_query Bench.wire]. unfold Bench.on_write.
  cbn [append Bench.cut Ascii.eqb Bool.eqb String.eqb orb].
  change (volts ++ String "," amps) with (volts ++ "," ++ amps).
  change ("," ++ amps) with (String "," amps).
  rewrite (split_at_first "," volts amps Hv), (split_whole "," amps Ha).
  unfold Bench.on_query. cbn [String.eqb Ascii.eqb Bool.eqb fst Bench.store Bench.memory
    Bench.selected Bench.recall].
  rewrite String.eqb_refl.
  destruct (String.eqb (Bench.selected d ++ ":SOUR:CURR") (Bench.selected d ++ ":SOUR:VOLT")) eqn:E.
  - exfalso. apply String.eqb_eq in E. revert E. generalize (Bench.selected d).
    intros s. induction s as [| c s IH]; cbn [append]; [discriminate |].
    intros [= E]. now apply IH.
  - now rewrite String.eqb_refl.
Qed.

(** ** The theorems at work on the simulated supply *)

Lemma invalid_channel_witness :
  ~ 0 <= 3 < 3 /\
  HPE3631A.set_current (PyFloat 1) (PyInt 3) Bench.idle
  = (Raise NotImplementedError, Bench.idle) /\
  HPE3631A.set_voltage (PyFloat 1) (PyInt 3) Bench.idle
  = (Raise NotImplementedError, Bench.idle) /\
  HPE3631A.meas_current (PyInt 3) Bench.idle = (Raise NotImplementedError, Bench.idle) /\
  HPE3631A.meas_voltage (PyInt 3) Bench.idle = (Raise NotImplementedError, Bench.idle).
Proof.
  assert (H : ~ 0 <= 3 < 3) by lia.
  exact (conj H (invalid_channel_raises_before_any_command Bench.idle (PyFloat 1) 3 H)).
Defined.

(** C1 as stated fails: on channels 3 and -1 the methods raise
    [NotImplementedError], not [InvalidChannelError]. *)
Lemma invalid_channel_is_not_a_channel_error :
  fst (HPE3631A.set_current (PyFloat 1) (PyInt 3) Bench.idle) <> Raise InvalidChannelError /\
  fst (HPE3631A.meas_voltage (PyInt (-1)) Bench.idle) <> Raise InvalidChannelError.
Proof. split; vm_compute; discriminate. Qed.

Lemma setpoint_sequence_witness :
  0 <= 1 < 3 /\
  log (snd (HPE3631A.set_voltage (PyFloat 30) (PyInt 1) Bench.idle))
  = [Write "INST:SEL P25V"; Write ":SOUR:VOLT 25.75"] /\
  log (snd (HPE3631A.set_current (PyFloat 30) (PyInt 1) Bench.idle))
  = [Write "INST:SEL P25V"; Write ":SOUR:CURR 1.03"].
Proof.
  assert (H : 0 <= 1 < 3) by lia. split; [exact H |].
  destruct (setpoint_methods_select_install_write Bench.idle 30%float 1 H)
    as (tok & vr & cr & vtext & ctext & Htok & Hvr & Hcr & Hvt & Hct & Hsv & Hsc).
  rewrite Hsv, Hsc. cbn [snd log Bench.idle Bench.boot app].
  injection Htok as <-. injection Hvr as <-. injection Hcr as <-.
  vm_compute in Hvt. vm_compute in Hct.
  injection Hvt as <-. injection Hct as <-.
  split; reflexivity.
Defined.

Lemma measure_on_active_channel_witness :
  0 <= 0 < 3 /\
  fst (Instrument.fget HPE3631A.select_output Bench.idle) = Ok (PyInt 0) /\
  log (snd (HPE3631A.meas_current (PyInt 0) Bench.idle))
  = [Query "INST:SEL?" "P6V"; Query ":MEAS:CURR?" "+2.00000000E-01"] /\
  log (snd (HPE3631A.meas_voltage (PyInt 0) Bench.idle))
  = [Query "INST:SEL?" "P6V"; Query ":MEAS:VOLT?" "+1.50000000E+00"].
Proof.
  assert (H : 0 <= 0 < 3) by lia.
  assert (Hact : fst (Instrument.fget HPE3631A.select_output Bench.idle) = Ok (PyInt 0))
    by reflexivity.
  split; [exact H |]. split; [exact Hact |].
  destruct (measure_on_active_channel Bench.idle 0 H Hact) as (_ & Hc & _ & Hv).
  rewrite Hc, Hv. split; reflexivity.
Defined.

(** C3 as stated fails: with output 0 already selected, [meas_current 0]
    makes two transport round trips, not one. *)
Lemma measure_on_active_channel_asks_twice :
  fst (Instrument.fget HPE3631A.select_output Bench.idle) = Ok (PyInt 0) /\
  log (snd (HPE3631A.meas_current (PyInt 0) Bench.idle))
  = [Query "INST:SEL?" "P6V"; Query ":MEAS:CURR?" "+2.00000000E-01"] /\
  Scenario.transport_calls (log (snd (HPE3631A.meas_current (PyInt 0) Bench.idle))) <> 1%nat.
Proof. repeat split; vm_compute; discriminate. Qed.

Lemma measure_on_other_channel_witness :
  0 <= 1 < 3 /\
  fst (Instrument.fget HPE3631A.select_output Bench.idle) = Ok (PyInt 0) /\
  Py.eq (PyInt 0) (PyInt 1) = false /\
  log (snd (HPE3631A.meas_current (PyInt 1) Bench.idle))
  = [Query "INST:SEL?" "P6V"; Write "INST:SEL P25V"; Sleep 0.2;
     Query ":MEAS:CURR?" "+2.00000000E-01"] /\
  log (snd (HPE3631A.meas_voltage (PyInt 1) Bench.idle))
  = [Query "INST:SEL?" "P6V"; Write "INST:SEL P25V"; Sleep 0.2;
     Query ":MEAS:VOLT?" "+1.50000000E+00"].
Proof.
  assert (H : 0 <= 1 < 3) by lia.
  assert (Hact : fst (Instrument.fget HPE3631A.select_output Bench.idle) = Ok (PyInt 0))
    by reflexivity.
  assert (Hne : Py.eq (PyInt 0) (PyInt 1) = false) by reflexivity.
  split; [exact H |]. split; [exact Hact |]. split; [exact Hne |].
  destruct (measure_on_other_channel Bench.idle 1 (PyInt 0) H Hact Hne)
    as (tok & Htok & _ & Hc & _ & Hv).
  injection Htok as <-. rewrite Hc, Hv. split; reflexivity.
Defined.

(** C4 as stated fails: with another output selected, [meas_current 1]
    makes three transport calls, not two. *)
Lemma measure_on_other_channel_calls_thrice :
  fst (Instrument.fget HPE3631A.select_output Bench.idle) = Ok (PyInt 0) /\
  log (snd (HPE3631A.meas_current (PyInt 1) Bench.idle))
  = [Query "INST:SEL?" "P6V"; Write "INST:SEL P25V"; Sleep 0.2;
     Query ":MEAS:CURR?" "+2.00000000E-01"] /\
  Scenario.transport_calls (log (snd (HPE3631A.meas_current (PyInt 1) Bench.idle))) <> 2%nat.
Proof. repeat split; vm_compute; discriminate. Qed.

Lemma setpoint_truncated_witness :
  PrimFloat.leb (-25.75) (-12.5) = true /\ PrimFloat.leb (-12.5) 0 = true /\
  log (snd (HPE3631A.set_voltage (PyFloat (-12.5)) (PyInt 2) Bench.idle))
  = [Write "INST:SEL N25V"; Write ":SOUR:VOLT -12.5"] /\
  log (snd (HPE3631A.set_voltage (PyFloat (-1)) (PyInt 0) Bench.idle))
  = [Write "INST:SEL P6V"; Write ":SOUR:VOLT 0"].
Proof.
  assert (Hlo : PrimFloat.leb (-25.75) (-12.5) = true) by reflexivity.
  assert (Hhi : PrimFloat.leb (-12.5) 0 = true) by reflexivity.
  split; [exact Hlo |]. split; [exact Hhi |].
  destruct (setpoint_truncated_to_channel_range Bench.idle (-12.5)%float Hlo Hhi) as (H2 & H0).
  rewrite H2, H0. split; reflexivity.
Defined.

(** C5 as stated fails: on channel 0 the value -1.0 raises nothing and
    [:SOUR:VOLT 0] is transmitted. *)
Lemma out_of_range_setpoint_is_transmitted :
  HPE3631A.set_voltage (PyFloat (-1)) (PyInt 0) Bench.idle
  <> (Raise ValidationError, Bench.idle) /\
  fst (HPE3631A.set_voltage (PyFloat (-1)) (PyInt 0) Bench.idle) = Ok tt /\
  log (snd (HPE3631A.set_voltage (PyFloat (-1)) (PyInt 0) Bench.idle))
  = [Write "INST:SEL P6V"; Write ":SOUR:VOLT 0"].
Proof.
  repeat split; try reflexivity.
  intros E. apply (f_equal fst) in E. vm_compute in E. discriminate.
Qed.

Lemma set_then_get_witness :
  getattr (attrs Bench.idle) "voltage_setpoint_values" = None /\
  log (snd (Instrument.fset HPE3631A.voltage_setpoint (PyFloat 10) Bench.idle))
  = [Write ":SOUR:VOLT 6.18"] /\
  fst (Scenario.set_then_get HPE3631A.voltage_setpoint (PyFloat 10) Bench.idle)
  = Ok (PyFloat 6.18) /\
  fst (Scenario.set_then_get HPE3631A.select_output (PyInt 2) Bench.idle) = Ok (PyInt 2) /\
  fst (Scenario.set_then_get HPE3631A.set_output_on (PyBool true) Bench.idle)
  = Ok (PyBool true) /\
  fst (Scenario.set_then_get HPE3631A.applied (PyTuple [PyFloat 1.5; PyFloat 0.2]) Bench.idle)
  = Ok (PyTuple [PyFloat 1.5; PyFloat 0.2]).
Proof.
  assert (Hattr : getattr (attrs Bench.idle) "voltage_setpoint_values" = None)
    by reflexivity.
  split; [exact Hattr |].
  destruct (set_then_get_returns_wire_value
              bench_voltage_read_back bench_current_read_back bench_output_read_back
              bench_selection_read_back bench_applied_read_back Bench.idle)
    as (_ & _ & Hsel & Hout & Happ & Hten).
  destruct (Hten Hattr) as (_ & Hlog & Hget).
  split; [exact Hlog |]. split; [exact Hget |].
  split; [apply Hsel; lia |]. split; [apply Hout |].
  rewrite Happ. reflexivity.
Defined.

(** C6 as stated fails: 1.2345678 lies inside the default range, so
    truncation leaves it alone, yet it is transmitted as 1.23457 and reads
    back as 1.23457. *)
Lemma set_then_get_loses_digits :
  truncated_range (PyFloat 1.2345678) (Property.values HPE3631A.voltage_setpoint)
  = Ok (PyFloat 1.2345678) /\
  log (snd (Instrument.fset HPE3631A.voltage_setpoint (PyFloat 1.2345678) Bench.idle))
  = [Write ":SOUR:VOLT 1.23457"] /\
  fst (Scenario.set_then_get HPE3631A.voltage_setpoint (PyFloat 1.2345678) Bench.idle)
  = Ok (PyFloat 1.23457) /\
  PrimFloat.eqb 1.23457 1.2345678 = false.
Proof. repeat split; reflexivity. Qed.

Lemma select_output_witness :
  In (1, "P25V") [(0, "P6V"); (1, "P25V"); (2, "N25V")] /\
  log (snd (Instrument.fset HPE3631A.select_output (PyInt 1) Bench.idle))
  = [Write "INST:SEL P25V"] /\
  In (2, "N25V") [(0, "P6V"); (1, "P25V"); (2, "N25V")] /\
  fst (Instrument.fget HPE3631A.select_output
         (Bench.boot {| Bench.selected := "N25V"; Bench.memory := [];
                        Bench.meter := fun _ _ => "0" |}))
  = Ok (PyInt 2).
Proof.
  assert (H1 : In (1, "P25V") [(0, "P6V"); (1, "P25V"); (2, "N25V")]) by (cbn; auto).
  assert (H2 : In (2, "N25V") [(0, "P6V"); (1, "P25V"); (2, "N25V")]) by (cbn; auto).
  split; [exact H1 |].
  destruct (select_output_maps_by_table Bench.idle 1 "P25V" H1) as (_ & Hset & _).
  split; [now rewrite Hset |]. split; [exact H2 |].
  destruct (select_output_maps_by_table
              (Bench.boot {| Bench.selected := "N25V"; Bench.memory := [];
                             Bench.meter := fun _ _ => "0" |}) 2 "N25V" H2)
    as (_ & _ & Hget).
  apply Hget. reflexivity.
Defined.

Lemma applied_witness :
  free_of "," "1.500" /\ free_of HPE3631A.dquote "1.500" /\
  free_of "," "0.200" /\ free_of HPE3631A.dquote "0.200" /\
  Py.float_of_str "1.500" = Some 1.5%float /\ Py.float_of_str "0.200" = Some 0.2%float /\
  fst (Instrument.fget HPE3631A.applied
         (Bench.boot {| Bench.selected := "P6V";
                        Bench.memory := [("P6V:SOUR:VOLT", "1.500"); ("P6V:SOUR:CURR", "0.200")];
                        Bench.meter := fun _ _ => "0" |}))
  = Ok (PyTuple [PyFloat 1.5; PyFloat 0.2]).
Proof.
  assert (H1 : free_of "," "1.500") by reflexivity.
  assert (H2 : free_of HPE3631A.dquote "1.500") by reflexivity.
  assert (H3 : free_of "," "0.200") by reflexivity.
  assert (H4 : free_of HPE3631A.dquote "0.200") by reflexivity.
  assert (H5 : Py.float_of_str "1.500" = Some 1.5%float) by (vm_compute; reflexivity).
  assert (H6 : Py.float_of_str "0.200" = Some 0.2%float) by (vm_compute; reflexivity).
  repeat (split; [assumption |]).
  apply (applied_reads_quoted_pair _ "1.500" "0.200" 1.5 0.2 H1 H2 H3 H4 H5 H6).
  reflexivity.
Defined.

Lemma scoped_call_witness :
  0 <= 2 < 3 /\
  fst (Instrument.fget HPE3631A.select_output Bench.idle) = Ok (PyInt 0) /\
  fst (Instrument.fget HPE3631A.select_output
         (snd (HPE3631A.set_voltage (PyFloat (-5)) (PyInt 2) Bench.idle))) = Ok (PyInt 2) /\
  fst (Instrument.fget HPE3631A.select_output
         (snd (HPE3631A.meas_current (PyInt 2) Bench.idle))) = Ok (PyInt 2).
Proof.
  assert (H : 0 <= 2 < 3) by lia.
  split; [exact H |]. split; [reflexivity |].
  destruct (scoped_call_leaves_its_channel_selected Bench.selected
              bench_query_reads bench_query_keeps bench_selection_sets bench_setpoint_keeps
              Bench.idle (-5)%float 2 H) as (Hsv & _ & _ & Hmc).
  split.
  - apply Hsv.
    destruct (HPE3631A.set_voltage (PyFloat (-5)) (PyInt 2) Bench.idle) as [r s] eqn:E.
    assert (r = Ok tt) by (apply (f_equal fst) in E; vm_compute in E; congruence).
    subst r. reflexivity.
  - destruct (HPE3631A.meas_current (PyInt 2) Bench.idle) as [r s] eqn:E.
    assert (r = Ok (PyFloat 0.2)) by (apply (f_equal fst) in E; vm_compute in E; congruence).
    subst r. now apply (Hmc (PyFloat 0.2)).
Defined.

Lemma installed_range_witness :
  0 <= 1 < 3 /\ 0 <= 0 < 3 /\
  log (snd (Scenario.assign_each HPE3631A.current_limit [PyFloat 4; PyFloat 0.5]
              (snd (HPE3631A.set_current (PyFloat 3) (PyInt 1) Bench.idle))))
  = [Write "INST:SEL P25V"; Write ":SOUR:CURR 1.03";
     Write ":SOUR:CURR 1.03"; Write ":SOUR:CURR 0.5"] /\
  getattr (attrs (snd (HPE3631A.set_voltage (PyFloat 2) (PyInt 0)
                         (snd (HPE3631A.set_current (PyFloat 3) (PyInt 1) Bench.idle)))))
    "current_limit_values"
  = Some (PyTuple [PyInt 0; PyFloat 1.03]).
Proof.
  assert (H : 0 <= 1 < 3) by lia. assert (H' : 0 <= 0 < 3) by lia.
  split; [exact H |]. split; [exact H' |].
  destruct (installed_range_outlives_the_call Bench.idle 3%float 2%float 1 0 [4; 0.5]%float H H')
    as (vr & cr & vtexts & ctexts & Hvr & Hcr & Hv & Hc & _ & Hrun & Hkeep).
  injection Hcr as <-. cbv zeta in Hrun, Hkeep.
  split; [| exact Hkeep].
  change (map PyFloat [4; 0.5]%float) with [PyFloat 4; PyFloat 0.5] in Hrun.
  rewrite Hrun. cbn [snd log].
  inversion Hc as [| w1 t1 ws1 ts1 E1 Hc1]; subst.
  inversion Hc1 as [| w2 t2 ws2 ts2 E2 Hc2]; subst.
  inversion Hc2; subst.
  vm_compute in E1. vm_compute in E2. injection E1 as <-. injection E2 as <-.
  reflexivity.
Defined.

(** * Further properties of the driver *)

(** ** Channel arguments of any type *)

Lemma cmp_int_float_unique (c k : Z) (f : float) :
  Py.cmp_int_float c f = Some Eq -> Py.cmp_int_float k f = Some (k ?= c).
Proof.
  unfold Py.cmp_int_float.
  destruct (Prim2SF f) as [s | s | | s m e]; try discriminate.
  - intros [= E]. apply Z.compare_eq in E. now subst c.
  - destruct s; discriminate.
  - intros [= E]. apply Z.compare_eq in E. rewrite <- E.
    f_equal. symmetry. apply Zmult_compare_compat_r.
    apply Z.lt_gt, Z.pow_pos_nonneg; lia.
Qed.

Lemma comparison_eq_eqb (k c : Z) :
  match k ?= c with Eq => true | _ => false end = (k =? c).
Proof.
  destruct (Z.compare_spec k c), (Z.eqb_spec k c); try reflexivity; lia.
Qed.

(** A value equal to the integer [c] is equal to an integer [k] exactly
    when [k] is [c], on either side of [==]. *)
Lemma eq_int_unique (x : pyval) (c k : Z) :
  Py.eq x (PyInt c) = true ->
  Py.eq x (PyInt k) = (k =? c) /\ Py.eq (PyInt k) x = (k =? c).
Proof.
  destruct x; try discriminate.
  - change (Py.eq (PyBool b) (PyInt c)) with (Z.b2z b =? c).
    change (Py.eq (PyBool b) (PyInt k)) with (Z.b2z b =? k).
    change (Py.eq (PyInt k) (PyBool b)) with (k =? Z.b2z b).
    intros ->%Z.eqb_eq. split; [apply Z.eqb_sym | reflexivity].
  - change (Py.eq (PyInt z) (PyInt c)) with (z =? c).
    change (Py.eq (PyInt z) (PyInt k)) with (z =? k).
    change (Py.eq (PyInt k) (PyInt z)) with (k =? z).
    intros ->%Z.eqb_eq. split; [apply Z.eqb_sym | reflexivity].
  - change (Py.eq (PyFloat f) (PyInt c))
      with (match Py.cmp_int_float c f with Some Eq => true | _ => false end).
    change (Py.eq (PyFloat f) (PyInt k))
      with (match Py.cmp_int_float k f with Some Eq => true | _ => false end).
    change (Py.eq (PyInt k) (PyFloat f))
      with (match Py.cmp_int_float k f with Some Eq => true | _ => false end).
    destruct (Py.cmp_int_float c f) as [[| |] |] eqn:E; try discriminate.
    intros _. rewrite (cmp_int_float_unique c k f E).
    split; apply comparison_eq_eqb.
Qed.

Section Channels.
Context {D : Type} {T : Transport D}.

Lemma not_a_channel_any (select : pyval) (st : instance D) :
  HPE3631A.not_a_channel select st
  = (Ok (negb (Py.eq select (PyInt 0) || Py.eq select (PyInt 1)
               || Py.eq select (PyInt 2))), st).
Proof.
  unfold HPE3631A.not_a_channel, bind, lift, ret.
  cbn [HPE3631A._output_ch Py.len Py.items rbind map List.length Py.in_range seq existsb
       Z.of_nat Pos.of_succ_nat Pos.succ].
  now rewrite orb_false_r, orb_assoc.
Qed.

(** X1: a channel argument of any type that equals none of 0, 1, 2 (another
    number, a string, [None], a list) makes each of the four channel-scoped
    methods raise [NotImplementedError] at once: no transport call is made
    and the driver object is as it was. *)
Theorem value_that_is_no_channel_raises (st : instance D) (value select : pyval) :
  (forall c, 0 <= c < 3 -> Py.eq select (PyInt c) = false) ->
  HPE3631A.set_current value select st = (Raise NotImplementedError, st) /\
  HPE3631A.set_voltage value select st = (Raise NotImplementedError, st) /\
  HPE3631A.meas_current select st = (Raise NotImplementedError, st) /\
  HPE3631A.meas_voltage select st = (Raise NotImplementedError, st).
Proof.
  intros H.
  unfold HPE3631A.set_current, HPE3631A.set_voltage, HPE3631A.meas_current,
    HPE3631A.meas_voltage, bind.
  rewrite not_a_channel_any, (H 0), (H 1), (H 2) by lia.
  repeat split; reflexivity.
Qed.

Lemma not_a_channel_equal (select : pyval) (c : Z) (st : instance D) :
  0 <= c < 3 -> Py.eq select (PyInt c) = true ->
  HPE3631A.not_a_channel select st = (Ok false, st).
Proof.
  intros H E. rewrite not_a_channel_any.
  rewrite (proj1 (eq_int_unique select c 0 E)), (proj1 (eq_int_unique select c 1 E)),
    (proj1 (eq_int_unique select c 2 E)).
  destruct (valid_channel_cases c H) as [-> | [-> | ->]]; reflexivity.
Qed.

Lemma fset_select_output_equal (select : pyval) (c : Z) (st : instance D) :
  0 <= c < 3 -> Py.eq select (PyInt c) = true ->
  Instrument.fset HPE3631A.select_output select st
  = Instrument.fset HPE3631A.select_output (PyInt c) st.
Proof.
  intros H E.
  unfold Instrument.fset, Instrument.values_in_force, bind, lift, ret, raise,
    HPE3631A.select_output, Instrument.control, strict_discrete_set, Py.contains.
  cbn [Property.set_command Property.dynamic Property.values Property.validator
       Property.map_values HPE3631A._output_ch Py.items rbind map fst existsb negb
       Py.lookup].
  rewrite (proj1 (eq_int_unique select c 0 E)), (proj1 (eq_int_unique select c 1 E)),
    (proj1 (eq_int_unique select c 2 E)).
  pose proof (proj2 (eq_int_unique select c 0 E)) as E0.
  pose proof (proj2 (eq_int_unique select c 1 E)) as E1.
  pose proof (proj2 (eq_int_unique select c 2 E)) as E2.
  destruct (valid_channel_cases c H) as [-> | [-> | ->]];
    cbn [Z.eqb Pos.eqb orb Py.lookup] in *; rewrite ?E0, ?E1, ?E2; reflexivity.
Qed.

Lemma range_lookup_equal (d : list (pyval * pyval)) (select : pyval) (c : Z) :
  Forall (fun kv => exists k, fst kv = PyInt k) d ->
  Py.eq select (PyInt c) = true ->
  Py.lookup d select = Py.lookup d (PyInt c).
Proof.
  intros Hd E. induction Hd as [| [k v] d [i Hi] Hd IH]; [reflexivity |].
  cbn [fst] in Hi. subst k. cbn [Py.lookup].
  rewrite (proj2 (eq_int_unique select c i E)).
  change (Py.eq (PyInt i) (PyInt c)) with (i =? c). now rewrite IH.
Qed.

Lemma table_lookup_equal (select : pyval) (c : Z) :
  Py.eq select (PyInt c) = true ->
  Py.dict_get HPE3631A._voltage_range select
  = Py.dict_get HPE3631A._voltage_range (PyInt c) /\
  Py.dict_get HPE3631A._current_range select
  = Py.dict_get HPE3631A._current_range (PyInt c).
Proof.
  intros E. unfold Py.dict_get, HPE3631A._voltage_range, HPE3631A._current_range.
  split; (rewrite (range_lookup_equal _ select c); [reflexivity | | exact E]);
    repeat constructor; eexists; reflexivity.
Qed.

Lemma fget_select_output_shape (st : instance D) (active : pyval) :
  fst (Instrument.fget HPE3631A.select_output st) = Ok active ->
  (exists k, active = PyInt k) \/ (exists l, active = PyList l).
Proof.
  unfold Instrument.fget, Instrument.values_in_force, Instrument.values, Instrument.ask,
    bind, lift, ret, raise, HPE3631A.select_output, Instrument.control.
  cbn [Property.dynamic Property.get_command Property.values Property.get_process
       Property.map_values negb].
  destruct (transport_query "INST:SEL?" (link st)) as [r d].
  destruct (map Instrument.cast (Py.split "," (Py.strip r))) as [| x [| y l]];
    cbn [fst]; try (intros [= <-]; right; eauto).
  cbn [HPE3631A._output_ch Instrument.key_of].
  destruct (Py.eq (PyStr "P6V") x); [intros [= <-]; left; eauto |].
  destruct (Py.eq (PyStr "P25V") x); [intros [= <-]; left; eauto |].
  destruct (Py.eq (PyStr "N25V") x); [intros [= <-]; left; eauto |].
  discriminate.
Qed.

Lemma active_equal (st : instance D) (active select : pyval) (c : Z) :
  fst (Instrument.fget HPE3631A.select_output st) = Ok active ->
  Py.eq select (PyInt c) = true ->
  Py.eq active select = Py.eq active (PyInt c).
Proof.
  intros Ha E. destruct (fget_select_output_shape st active Ha) as [[k ->] | [l ->]].
  - rewrite (proj2 (eq_int_unique select c k E)). reflexivity.
  - destruct select; try discriminate; reflexivity.
Qed.

(** X2: a channel argument that equals a valid index without being an
    [int] (1.0, [True]) is taken for that index: each of the four methods
    does with it exactly what it does with the index itself. *)
Theorem value_equal_to_channel_selects_it
    (st : instance D) (value select : pyval) (c : Z) :
  0 <= c < 3 -> Py.eq select (PyInt c) = true ->
  HPE3631A.set_current value select st = HPE3631A.set_current value (PyInt c) st /\
  HPE3631A.set_voltage value select st = HPE3631A.set_voltage value (PyInt c) st /\
  HPE3631A.meas_current select st = HPE3631A.meas_current (PyInt c) st /\
  HPE3631A.meas_voltage select st = HPE3631A.meas_voltage (PyInt c) st.
Proof.
  intros H E.
  destruct (table_lookup_equal select c E) as [Hv Hc].
  assert (Hmeas : forall p : Property.t,
    bind (Instrument.fget HPE3631A.select_output)
      (fun active =>
         if Py.eq active select then Instrument.fget p
         else bind (Instrument.fset HPE3631A.select_output select)
                (fun _ => bind (sleep 0.2) (fun _ => Instrument.fget p))) st
    = bind (Instrument.fget HPE3631A.select_output)
        (fun active =>
           if Py.eq active (PyInt c) then Instrument.fget p
           else bind (Instrument.fset HPE3631A.select_output (PyInt c))
                  (fun _ => bind (sleep 0.2) (fun _ => Instrument.fget p))) st).
  { intros p. unfold bind at 1 4.
    destruct (Instrument.fget HPE3631A.select_output st) as [[active | e] st1] eqn:Ef;
      [| reflexivity].
    assert (Ha : fst (Instrument.fget HPE3631A.select_output st) = Ok active)
      by now rewrite Ef.
    rewrite (active_equal st active select c Ha E).
    destruct (Py.eq active (PyInt c)); [reflexivity |].
    unfold bind. now rewrite (fset_select_output_equal select c st1 H E). }
  assert (Hstep : forall (A : Type) (k : bool -> M D A),
            bind (HPE3631A.not_a_channel select) k st = k false st /\
            bind (HPE3631A.not_a_channel (PyInt c)) k st = k false st).
  { intros A k. unfold bind.
    now rewrite (not_a_channel_equal select c st H E), (not_a_channel_valid c st H). }
  unfold HPE3631A.set_current, HPE3631A.set_voltage, HPE3631A.meas_current,
    HPE3631A.meas_voltage.
  repeat split;
    match goal with
    | |- bind _ ?k st = bind _ ?k' st =>
        rewrite (proj1 (Hstep _ k)), (proj2 (Hstep _ k'))
    end.
  - unfold bind, lift. rewrite (fset_select_output_equal select c st H E), Hc. reflexivity.
  - unfold bind, lift. rewrite (fset_select_output_equal select c st H E), Hv. reflexivity.
  - apply Hmeas.
  - apply Hmeas.
Qed.

End Channels.

(** ** Setpoints and the channel ranges *)

Lemma nan_spec_float (v : float) : PrimFloat.is_nan v = true -> Prim2SF v = S754_nan.
Proof. intros H. unfold Prim2SF. now rewrite H. Qed.

Lemma nan_is_above_nothing (a : pyval) (v : float) :
  is_number a -> PrimFloat.is_nan v = true ->
  Py.le a (PyFloat v) = Ok false /\ Py.lt a (PyFloat v) = Ok false.
Proof.
  intros Ha Hv. pose proof (nan_spec_float v Hv) as E.
  destruct a; try contradiction; unfold Py.le, Py.lt; cbn [Py.as_num Py.num_le Py.num_lt].
  - unfold Py.cmp_int_float. rewrite E. split; reflexivity.
  - unfold Py.cmp_int_float. rewrite E. split; reflexivity.
  - rewrite FloatAxioms.leb_spec, FloatAxioms.ltb_spec, E.
    destruct (Prim2SF f) as [s | s | | s m e]; split; reflexivity.
Qed.

Lemma truncated_range_within (lo hi : pyval) (v : float) :
  Bounds.ordered lo hi ->
  exists w,
    truncated_range (PyFloat v) (PyTuple [lo; hi]) = Ok w /\
    Py.le lo w = Ok true /\ Py.le w hi = Ok true /\
    (w = PyFloat v \/ w = lo \/ w = hi) /\
    (PrimFloat.is_nan v = true -> w = lo).
Proof.
  intros (Hlo & Hhi & Hlt & Hlt' & Hll & Hlh & Hhh).
  destruct (le_numbers lo (PyFloat v) Hlo I) as [r1 H1].
  destruct (le_numbers (PyFloat v) hi I Hhi) as [r2 H2].
  destruct (lt_numbers hi (PyFloat v) Hhi I) as [r3 H3].
  assert (Hnan : PrimFloat.is_nan v = true -> r1 = false /\ r3 = false).
  { intros Hv. destruct (nan_is_above_nothing lo v Hlo Hv) as [E1 _].
    destruct (nan_is_above_nothing hi v Hhi Hv) as [_ E3]. split; congruence. }
  unfold truncated_range, Py.min, Py.max.
  cbn [Py.items rbind Py.least Py.greatest]. rewrite Hlt, Hlt'. cbn [rbind].
  rewrite H1. cbn [rbind].
  destruct r1.
  - rewrite H2. cbn [rbind]. destruct r2.
    + exists (PyFloat v). repeat split; auto.
      intros Hv. destruct (Hnan Hv); discriminate.
    + rewrite H3. cbn [rbind]. destruct r3.
      * exists hi. repeat split; auto. intros Hv. destruct (Hnan Hv); discriminate.
      * exists lo. repeat split; auto.
  - cbn [rbind]. rewrite H3. cbn [rbind]. destruct r3.
    + exists hi. repeat split; auto. intros Hv. destruct (Hnan Hv); discriminate.
    + exists lo. repeat split; auto.
Qed.

Lemma channel_ranges_ordered (c : Z) :
  0 <= c < 3 ->
  exists tok lo hi tlo thi lo' hi' tlo' thi',
    Py.dict_get HPE3631A._output_ch (PyInt c) = Ok (PyStr tok) /\
    Py.dict_get HPE3631A._voltage_range (PyInt c) = Ok (PyTuple [lo; hi]) /\
    Bounds.ordered lo hi /\
    Py.format "%g" lo = Ok tlo /\ Py.format "%g" hi = Ok thi /\
    Py.dict_get HPE3631A._current_range (PyInt c) = Ok (PyTuple [lo'; hi']) /\
    Bounds.ordered lo' hi' /\
    Py.format "%g" lo' = Ok tlo' /\ Py.format "%g" hi' = Ok thi'.
Proof.
  intros H. destruct (valid_channel_cases c H) as [-> | [-> | ->]];
    do 9 eexists; unfold Bounds.ordered;
    repeat match goal with |- _ /\ _ => split end;
    try exact I; try reflexivity.
Qed.

Section Setpoints.
Context {D : Type} {T : Transport D}.

(** X3: whatever float is given, NaN and the infinities included, the
    setpoint that [set_voltage] and [set_current] transmit on a valid
    channel is a number of that channel's range, rendered with digits,
    point, sign and exponent only; a NaN is transmitted as the lower
    bound. *)
Theorem transmitted_setpoint_is_within_channel_range
    (st : instance D) (v : float) (c : Z) :
  0 <= c < 3 ->
  exists tok,
    Py.dict_get HPE3631A._output_ch (PyInt c) = Ok (PyStr tok) /\
    (exists lo hi w text,
       Py.dict_get HPE3631A._voltage_range (PyInt c) = Ok (PyTuple [lo; hi]) /\
       Py.le lo w = Ok true /\ Py.le w hi = Ok true /\
       (PrimFloat.is_nan v = true -> w = lo) /\
       Py.format "%g" w = Ok text /\ numeral text /\
       log (snd (HPE3631A.set_voltage (PyFloat v) (PyInt c) st))
       = (log st ++ [Write ("INST:SEL " ++ tok); Write (":SOUR:VOLT " ++ text)])%list) /\
    (exists lo hi w text,
       Py.dict_get HPE3631A._current_range (PyInt c) = Ok (PyTuple [lo; hi]) /\
       Py.le lo w = Ok true /\ Py.le w hi = Ok true /\
       (PrimFloat.is_nan v = true -> w = lo) /\
       Py.format "%g" w = Ok text /\ numeral text /\
       log (snd (HPE3631A.set_current (PyFloat v) (PyInt c) st))
       = (log st ++ [Write ("INST:SEL " ++ tok); Write (":SOUR:CURR " ++ text)])%list).
Proof.
  intros H.
  destruct (channel_ranges_ordered c H)
    as (tok & lo & hi & tlo & thi & lo' & hi' & tlo' & thi'
        & Htok & Hvr & Hord & Htlo & Hthi & Hcr & Hord' & Htlo' & Hthi').
  exists tok. split; [exact Htok |].
  assert (Hfmt : forall a b ta tb w, is_number a -> is_number b ->
            Py.format "%g" a = Ok ta -> Py.format "%g" b = Ok tb ->
            w = PyFloat v \/ w = a \/ w = b ->
            is_number w /\ exists text, Py.format "%g" w = Ok text /\ numeral text).
  { intros a b ta tb w Ha Hb Hta Htb [-> | [-> | ->]]; (split; [assumption || exact I |]).
    - exists (Py.format_g v). split; [apply format_g_float | apply numeral_format_g].
    - exists ta. split; [assumption | now apply (format_g_number a)].
    - exists tb. split; [assumption | now apply (format_g_number b)]. }
  split.
  - destruct (truncated_range_within lo hi v Hord) as (w & Hw & Hlw & Hwh & Hcase & Hnan).
    destruct Hord as (Hnlo & Hnhi & _).
    destruct (Hfmt lo hi tlo thi w Hnlo Hnhi Htlo Hthi Hcase) as (Hnw & text & Htext & Hnum).
    exists lo, hi, w, text. repeat split; auto.
    now rewrite (set_voltage_run st (PyFloat v) c tok text _ w H Htok Hvr Hw Hnw Htext).
  - destruct (truncated_range_within lo' hi' v Hord') as (w & Hw & Hlw & Hwh & Hcase & Hnan).
    destruct Hord' as (Hnlo & Hnhi & _).
    destruct (Hfmt lo' hi' tlo' thi' w Hnlo Hnhi Htlo' Hthi' Hcase)
      as (Hnw & text & Htext & Hnum).
    exists lo', hi', w, text. repeat split; auto.
    now rewrite (set_current_run st (PyFloat v) c tok text _ w H Htok Hcr Hw Hnw Htext).
Qed.

Lemma truncated_range_of_no_number (lo hi value : pyval) :
  Bounds.ordered lo hi -> Py.as_num value = None ->
  truncated_range value (PyTuple [lo; hi]) = Raise TypeError.
Proof.
  intros (Hlo & Hhi & Hlt & Hlt' & _) Hv.
  unfold truncated_range, Py.min, Py.max.
  cbn [Py.items rbind Py.least Py.greatest]. rewrite Hlt, Hlt'. cbn [rbind].
  unfold Py.le. rewrite Hv.
  destruct lo; try contradiction; reflexivity.
Qed.

(** X4: on a valid channel a value that is no number (a string, [None], a
    list) makes [set_voltage] and [set_current] raise [TypeError] only
    after the selection has been written and the channel's range
    installed: the channel is switched and the range replaced, and no
    setpoint is sent. *)
Theorem value_that_is_no_number_fails_after_selection
    (st : instance D) (value : pyval) (c : Z) :
  0 <= c < 3 -> Py.as_num value = None ->
  exists tok vr cr,
    Py.dict_get HPE3631A._output_ch (PyInt c) = Ok (PyStr tok) /\
    Py.dict_get HPE3631A._voltage_range (PyInt c) = Ok vr /\
    Py.dict_get HPE3631A._current_range (PyInt c) = Ok cr /\
    HPE3631A.set_voltage value (PyInt c) st
    = (Raise TypeError,
       {| attrs := setattr (attrs st) "voltage_setpoint_values" vr;
          link := transport_write ("INST:SEL " ++ tok) (link st);
          log := log st ++ [Write ("INST:SEL " ++ tok)] |}) /\
    HPE3631A.set_current value (PyInt c) st
    = (Raise TypeError,
       {| attrs := setattr (attrs st) "current_limit_values" cr;
          link := transport_write ("INST:SEL " ++ tok) (link st);
          log := log st ++ [Write ("INST:SEL " ++ tok)] |}).
Proof.
  intros H Hv.
  destruct (channel_ranges_ordered c H)
    as (tok & lo & hi & tlo & thi & lo' & hi' & tlo' & thi'
        & Htok & Hvr & Hord & Htlo & Hthi & Hcr & Hord' & Htlo' & Hthi').
  destruct (fset_select_output c st H) as (tok' & Htok' & Hsel).
  assert (tok' = tok) by congruence; subst tok'.
  exists tok, (PyTuple [lo; hi]), (PyTuple [lo'; hi']).
  repeat split; auto.
  - unfold HPE3631A.set_voltage, bind.
    rewrite (not_a_channel_valid c st H), Hsel. unfold Instrument.write at 1.
    unfold lift. rewrite Hvr. cbn [assign attrs link log].
    unfold Instrument.fset, Instrument.values_in_force, bind, lift.
    cbn [Property.set_command Property.dynamic Property.validator Property.name
         HPE3631A.voltage_setpoint Instrument.control attrs].
    change ("voltage_setpoint" ++ "_values") with "voltage_setpoint_values".
    rewrite getattr_setattr, (truncated_range_of_no_number lo hi value Hord Hv).
    reflexivity.
  - unfold HPE3631A.set_current, bind.
    rewrite (not_a_channel_valid c st H), Hsel. unfold Instrument.write at 1.
    unfold lift. rewrite Hcr. cbn [assign attrs link log].
    unfold Instrument.fset, Instrument.values_in_force, bind, lift.
    cbn [Property.set_command Property.dynamic Property.validator Property.name
         HPE3631A.current_limit Instrument.control attrs].
    change ("current_limit" ++ "_values") with "current_limit_values".
    rewrite getattr_setattr, (truncated_range_of_no_number lo' hi' value Hord' Hv).
    reflexivity.
Qed.

(** X5: when the selector query is answered by a single item that is none
    of the three tokens, [meas_current] and [meas_voltage] on a valid
    channel raise [KeyError] after that one query: the channel is not
    switched and nothing is measured. *)
Theorem unknown_selection_stops_measurement (st : instance D) (c : Z) :
  0 <= c < 3 ->
  let sel := transport_query "INST:SEL?" (link st) in
  free_of "," (Py.strip (fst sel)) ->
  ~ In (Py.strip (fst sel)) ["P6V"; "P25V"; "N25V"] ->
  HPE3631A.meas_current (PyInt c) st
  = (Raise KeyError,
     {| attrs := attrs st; link := snd sel;
        log := log st ++ [Query "INST:SEL?" (fst sel)] |}) /\
  HPE3631A.meas_voltage (PyInt c) st
  = (Raise KeyError,
     {| attrs := attrs st; link := snd sel;
        log := log st ++ [Query "INST:SEL?" (fst sel)] |}).
Proof.
  intros H sel Hfree Hnot.
  assert (Hget : Instrument.fget HPE3631A.select_output st
                 = (Raise KeyError,
                    {| attrs := attrs st; link := snd sel;
                       log := log st ++ [Query "INST:SEL?" (fst sel)] |})).
  { unfold Instrument.fget, Instrument.values_in_force, Instrument.values, Instrument.ask,
      bind, lift, ret, raise, HPE3631A.select_output, Instrument.control.
    cbn [Property.dynamic Property.get_command Property.values Property.get_process
         Property.map_values negb].
    subst sel. destruct (transport_query "INST:SEL?" (link st)) as [r d].
    cbn [fst snd] in *. rewrite (split_whole "," _ Hfree). cbn [map].
    cbn [HPE3631A._output_ch Instrument.key_of].
    unfold Instrument.cast. destruct (Py.float_of_str (Py.strip r)); [reflexivity |].
    change (Py.eq (PyStr ?a) (PyStr ?b)) with (String.eqb a b).
    destruct (String.eqb_spec "P6V" (Py.strip r)) as [E | _];
      [exfalso; apply Hnot; rewrite <- E; cbn; auto |].
    destruct (String.eqb_spec "P25V" (Py.strip r)) as [E | _];
      [exfalso; apply Hnot; rewrite <- E; cbn; auto |].
    destruct (String.eqb_spec "N25V" (Py.strip r)) as [E | _];
      [exfalso; apply Hnot; rewrite <- E; cbn; auto |].
    reflexivity. }
  unfold HPE3631A.meas_current, HPE3631A.meas_voltage, bind.
  rewrite (not_a_channel_valid c st H), Hget. split; reflexivity.
Qed.

End Setpoints.

(** ** Measurements and the selected channel *)

Section Measurements.
Context {D : Type} {T : Transport D}.

Lemma meas_on_active (p : Property.t) (st : instance D) (c : Z) :
  0 <= c < 3 ->
  fst (Instrument.fget HPE3631A.select_output st) = Ok (PyInt c) ->
  bind (HPE3631A.not_a_channel (PyInt c))
    (fun bad : bool =>
       if bad then raise NotImplementedError
       else bind (Instrument.fget HPE3631A.select_output)
              (fun active =>
                 if Py.eq active (PyInt c) then Instrument.fget p
                 else bind (Instrument.fset HPE3631A.select_output (PyInt c))
                        (fun _ => bind (sleep 0.2) (fun _ => Instrument.fget p)))) st
  = Instrument.fget p
      {| attrs := attrs st;
         link := snd (transport_query "INST:SEL?" (link st));
         log := log st ++ [Query "INST:SEL?" (fst (transport_query "INST:SEL?" (link st)))] |}.
Proof.
  intros H Hact. unfold bind at 1 2. rewrite (not_a_channel_valid c st H).
  pose proof (fget_state HPE3631A.select_output st) as Hst.
  destruct (Instrument.fget HPE3631A.select_output st) as [r st1].
  cbn [fst snd] in Hact, Hst. subst r st1. now rewrite eq_int_refl.
Qed.

Lemma meas_on_other (p : Property.t) (st : instance D) (c : Z) (active : pyval) :
  0 <= c < 3 ->
  fst (Instrument.fget HPE3631A.select_output st) = Ok active ->
  Py.eq active (PyInt c) = false ->
  exists tok,
    Py.dict_get HPE3631A._output_ch (PyInt c) = Ok (PyStr tok) /\
    bind (HPE3631A.not_a_channel (PyInt c))
      (fun bad : bool =>
         if bad then raise NotImplementedError
         else bind (Instrument.fget HPE3631A.select_output)
                (fun active =>
                   if Py.eq active (PyInt c) then Instrument.fget p
                   else bind (Instrument.fset HPE3631A.select_output (PyInt c))
                          (fun _ => bind (sleep 0.2) (fun _ => Instrument.fget p)))) st
    = Instrument.fget p
        {| attrs := attrs st;
           link := transport_write ("INST:SEL " ++ tok)
                     (snd (transport_query "INST:SEL?" (link st)));
           log := log st ++ [Query "INST:SEL?" (fst (transport_query "INST:SEL?" (link st)));
                             Write ("INST:SEL " ++ tok); Sleep 0.2] |}.
Proof.
  intros H Hact Hne.
  pose proof (fget_state HPE3631A.select_output st) as Hst.
  destruct (fset_select_output c (snd (Instrument.fget HPE3631A.select_output st)) H)
    as (tok & Htok & Hsel).
  exists tok. split; [exact Htok |].
  unfold bind at 1 2. rewrite (not_a_channel_valid c st H).
  destruct (Instrument.fget HPE3631A.select_output st) as [r st1].
  cbn [fst snd] in Hact, Hst, Hsel. subst r. rewrite Hne.
  unfold bind. rewrite Hsel. unfold Instrument.write, sleep. subst st1.
  cbn [attrs link log]. now rewrite <- !List.app_assoc.
Qed.

(** The instrument's selector register, as the driver can observe it. *)
Variable register : D -> string.
Hypothesis query_reads :
  forall d, fst (transport_query "INST:SEL?" d) = register d.
Hypothesis query_keeps :
  forall command d, register (snd (transport_query command d)) = register d.
Hypothesis selection_sets :
  forall c tok d,
    Py.dict_get HPE3631A._output_ch (PyInt c) = Ok (PyStr tok) ->
    register (transport_write ("INST:SEL " ++ tok) d) = tok.
Hypothesis setpoint_keeps :
  forall text d,
    register (transport_write (":SOUR:VOLT " ++ text) d) = register d /\
    register (transport_write (":SOUR:CURR " ++ text) d) = register d.

Lemma measured_where_selected (p : Property.t) (st st' : instance D) (c : Z) (x : pyval) :
  0 <= c < 3 ->
  bind (HPE3631A.not_a_channel (PyInt c))
    (fun bad : bool =>
       if bad then raise NotImplementedError
       else bind (Instrument.fget HPE3631A.select_output)
              (fun active =>
                 if Py.eq active (PyInt c) then Instrument.fget p
                 else bind (Instrument.fset HPE3631A.select_output (PyInt c))
                        (fun _ => bind (sleep 0.2) (fun _ => Instrument.fget p)))) st
  = (Ok x, st') ->
  exists d evs,
    fst (Instrument.fget HPE3631A.select_output {| attrs := attrs st; link := d; log := evs |})
    = Ok (PyInt c) /\
    Instrument.fget p {| attrs := attrs st; link := d; log := evs |} = (Ok x, st').
Proof.
  intros H Hrun.
  destruct (Instrument.fget HPE3631A.select_output st) as [[active | e] st1] eqn:E.
  - assert (Hact : fst (Instrument.fget HPE3631A.select_output st) = Ok active)
      by now rewrite E.
    destruct (Py.eq active (PyInt c)) eqn:Heq.
    + apply (fget_select_output_int st active c Hact) in Heq. subst active.
      rewrite (meas_on_active p st c H Hact) in Hrun.
      eexists _, _. split; [| exact Hrun].
      rewrite <- Hact. apply fget_select_output_reply. cbn [link].
      now rewrite !query_reads, query_keeps.
    + destruct (meas_on_other p st c active H Hact Heq) as (tok & Htok & Hbody).
      rewrite Hbody in Hrun.
      eexists _, _. split; [| exact Hrun].
      apply fget_select_output_token with (tok := tok); auto.
      cbn [link]. rewrite query_reads. now apply selection_sets with (c := c).
  - exfalso. revert Hrun. unfold bind at 1 2. rewrite (not_a_channel_valid c st H), E.
    discriminate.
Qed.

(** X6: a measurement is always taken with the requested channel selected:
    when [meas_current] or [meas_voltage] returns for a valid channel, its
    last transport call is the read of [current] or [voltage], made on an
    instrument whose selector reads as that channel, and the reading of
    that call is what is returned. *)
Theorem measurement_is_taken_on_requested_channel
    (st st' : instance D) (c : Z) (x : pyval) :
  0 <= c < 3 ->
  (HPE3631A.meas_current (PyInt c) st = (Ok x, st') ->
   exists d evs,
     fst (Instrument.fget HPE3631A.select_output
            {| attrs := attrs st; link := d; log := evs |}) = Ok (PyInt c) /\
     Instrument.fget HPE3631A.current {| attrs := attrs st; link := d; log := evs |}
     = (Ok x, st')) /\
  (HPE3631A.meas_voltage (PyInt c) st = (Ok x, st') ->
   exists d evs,
     fst (Instrument.fget HPE3631A.select_output
            {| attrs := attrs st; link := d; log := evs |}) = Ok (PyInt c) /\
     Instrument.fget HPE3631A.voltage {| attrs := attrs st; link := d; log := evs |}
     = (Ok x, st')).
Proof.
  intros H. split; intros Hrun.
  - now apply (measured_where_selected HPE3631A.current st st' c x H).
  - now apply (measured_where_selected HPE3631A.voltage st st' c x H).
Qed.

Lemma selected_after_setpoint (st : instance D) (v : float) (c : Z) :
  0 <= c < 3 ->
  fst (Instrument.fget HPE3631A.select_output
         (snd (HPE3631A.set_voltage (PyFloat v) (PyInt c) st))) = Ok (PyInt c) /\
  fst (Instrument.fget HPE3631A.select_output
         (snd (HPE3631A.set_current (PyFloat v) (PyInt c) st))) = Ok (PyInt c).
Proof.
  intros H.
  destruct (channel_rows c H)
    as (tok & a & b & ta & tb & a' & b' & ta' & tb' & Htok & Hvr & Ha & Hb & Hta & Htb
        & Hcr & Ha' & Hb' & Hta' & Htb').
  split.
  - destruct (setpoint_text_total a b ta tb v Ha Hb Hta Htb)
      as (w & text & Hw & Hnw & Hfw & _ & _).
    rewrite (set_voltage_run st (PyFloat v) c tok text _ w H Htok Hvr Hw Hnw Hfw).
    apply fget_select_output_token with (tok := tok); auto.
    cbn [snd link]. rewrite query_reads, (proj1 (setpoint_keeps text _)).
    now apply selection_sets with (c := c).
  - destruct (setpoint_text_total a' b' ta' tb' v Ha' Hb' Hta' Htb')
      as (w & text & Hw & Hnw & Hfw & _ & _).
    rewrite (set_current_run st (PyFloat v) c tok text _ w H Htok Hcr Hw Hnw Hfw).
    apply fget_select_output_token with (tok := tok); auto.
    cbn [snd link]. rewrite query_reads, (proj2 (setpoint_keeps text _)).
    now apply selection_sets with (c := c).
Qed.

(** X7: a measurement that follows a setpoint call pauses exactly when it
    changes channel.  After [set_voltage] on channel [c], [meas_voltage]
    on [c] adds the selector query and the measurement query only; on
    another valid channel it adds the selector query, the selection write,
    the pause of 0.2 s and the measurement query.  The same holds for
    [meas_current] after [set_current]. *)
Theorem measurement_after_setpoint_pauses_on_change
    (st : instance D) (v : float) (c c' : Z) :
  0 <= c < 3 -> 0 <= c' < 3 ->
  (let s := snd (HPE3631A.set_voltage (PyFloat v) (PyInt c) st) in
   let sel := transport_query "INST:SEL?" (link s) in
   (c' = c ->
    log (snd (HPE3631A.meas_voltage (PyInt c') s))
    = (log s ++ [Query "INST:SEL?" (fst sel);
                 Query ":MEAS:VOLT?" (fst (transport_query ":MEAS:VOLT?" (snd sel)))])%list) /\
   (c' <> c ->
    exists tok,
      Py.dict_get HPE3631A._output_ch (PyInt c') = Ok (PyStr tok) /\
      log (snd (HPE3631A.meas_voltage (PyInt c') s))
      = (log s ++ [Query "INST:SEL?" (fst sel); Write ("INST:SEL " ++ tok); Sleep 0.2;
                   Query ":MEAS:VOLT?"
                     (fst (transport_query ":MEAS:VOLT?"
                             (transport_write ("INST:SEL " ++ tok) (snd sel))))])%list)) /\
  (let s := snd (HPE3631A.set_current (PyFloat v) (PyInt c) st) in
   let sel := transport_query "INST:SEL?" (link s) in
   (c' = c ->
    log (snd (HPE3631A.meas_current (PyInt c') s))
    = (log s ++ [Query "INST:SEL?" (fst sel);
                 Query ":MEAS:CURR?" (fst (transport_query ":MEAS:CURR?" (snd sel)))])%list) /\
   (c' <> c ->
    exists tok,
      Py.dict_get HPE3631A._output_ch (PyInt c') = Ok (PyStr tok) /\
      log (snd (HPE3631A.meas_current (PyInt c') s))
      = (log s ++ [Query "INST:SEL?" (fst sel); Write ("INST:SEL " ++ tok); Sleep 0.2;
                   Query ":MEAS:CURR?"
                     (fst (transport_query ":MEAS:CURR?"
                             (transport_write ("INST:SEL " ++ tok) (snd sel))))])%list)).
Proof.
  intros H H'.
  destruct (selected_after_setpoint st v c H) as [Hsv Hsc].
  assert (Hgen : forall (p : Property.t) (s : instance D),
    fst (Instrument.fget HPE3631A.select_output s) = Ok (PyInt c) ->
    let sel := transport_query "INST:SEL?" (link s) in
    let body :=
      bind (HPE3631A.not_a_channel (PyInt c'))
        (fun bad : bool =>
           if bad then raise NotImplementedError
           else bind (Instrument.fget HPE3631A.select_output)
                  (fun active =>
                     if Py.eq active (PyInt c') then Instrument.fget p
                     else bind (Instrument.fset HPE3631A.select_output (PyInt c'))
                            (fun _ => bind (sleep 0.2) (fun _ => Instrument.fget p)))) in
    (c' = c ->
     log (snd (body s))
     = (log s ++ [Query "INST:SEL?" (fst sel);
                  Query (Property.get_command p)
                    (fst (transport_query (Property.get_command p) (snd sel)))])%list) /\
    (c' <> c ->
     exists tok,
       Py.dict_get HPE3631A._output_ch (PyInt c') = Ok (PyStr tok) /\
       log (snd (body s))
       = (log s ++ [Query "INST:SEL?" (fst sel); Write ("INST:SEL " ++ tok); Sleep 0.2;
                    Query (Property.get_command p)
                      (fst (transport_query (Property.get_command p)
                              (transport_write ("INST:SEL " ++ tok) (snd sel))))])%list)).
  { intros p s Hs sel body. split.
    - intros ->. subst body. rewrite (meas_on_active p s c H Hs), fget_state.
      cbn [attrs link log]. now rewrite <- List.app_assoc.
    - intros Hne.
      assert (Heq : Py.eq (PyInt c) (PyInt c') = false)
        by (change (Py.eq (PyInt c) (PyInt c')) with (c =? c'); apply Z.eqb_neq; congruence).
      destruct (meas_on_other p s c' (PyInt c) H' Hs Heq) as (tok & Htok & Hbody).
      exists tok. split; [exact Htok |]. subst body. rewrite Hbody, fget_state.
      cbn [attrs link log]. now rewrite <- List.app_assoc. }
  split.
  - exact (Hgen HPE3631A.voltage _ Hsv).
  - exact (Hgen HPE3631A.current _ Hsc).
Qed.

End Measurements.

(** ** What leaves an installed range alone *)

Section Frame.
Context {D : Type} {T : Transport D}.

Lemma fset_attrs (p : Property.t) (value : pyval) (st : instance D) :
  attrs (snd (Instrument.fset p value st)) = attrs st.
Proof.
  unfold Instrument.fset, Instrument.values_in_force, bind, lift, ret, raise,
    Instrument.write.
  destruct (Property.set_command p); [| reflexivity].
  destruct (Property.validator p value _) as [w |]; [| reflexivity].
  destruct (negb (Property.map_values p)).
  - destruct (Py.format s w); reflexivity.
  - match goal with
    | |- context [match ?x with PyNone => _ | _ => _ end] => destruct x
    end; try reflexivity;
    match goal with
    | |- context [match ?x with Ok _ => _ | Raise _ => _ end] =>
        destruct x; try reflexivity
    | |- context [match ?x with Some _ => _ | None => _ end] =>
        destruct x; try reflexivity
    end;
    match goal with
    | |- context [Py.format s ?v] => destruct (Py.format s v); reflexivity
    end.
Qed.

Lemma fget_attrs (p : Property.t) (st : instance D) :
  attrs (snd (Instrument.fget p st)) = attrs st.
Proof. now rewrite fget_state. Qed.

Lemma meas_attrs (p : Property.t) (select : pyval) (st : instance D) :
  attrs (snd (bind (HPE3631A.not_a_channel select)
                (fun bad : bool =>
                   if bad then raise NotImplementedError
                   else bind (Instrument.fget HPE3631A.select_output)
                          (fun active =>
                             if Py.eq active select then Instrument.fget p
                             else bind (Instrument.fset HPE3631A.select_output select)
                                    (fun _ => bind (sleep 0.2)
                                                (fun _ => Instrument.fget p)))) st))
  = attrs st.
Proof.
  unfold bind at 1. rewrite not_a_channel_any.
  destruct (negb _); [reflexivity |].
  unfold bind at 1.
  pose proof (fget_attrs HPE3631A.select_output st) as H1.
  destruct (Instrument.fget HPE3631A.select_output st) as [[active | e] st1];
    cbn [snd] in H1; [| exact H1].
  destruct (Py.eq active select).
  - now rewrite fget_attrs.
  - unfold bind at 1.
    pose proof (fset_attrs HPE3631A.select_output select st1) as H2.
    destruct (Instrument.fset HPE3631A.select_output select st1) as [[[] | e] st2];
      cbn [snd] in H2 |- *; [| congruence].
    unfold bind, sleep. rewrite fget_attrs. cbn [attrs]. congruence.
Qed.

Lemma set_current_keeps_voltage_range (value select : pyval) (st : instance D) :
  getattr (attrs (snd (HPE3631A.set_current value select st))) "voltage_setpoint_values"
  = getattr (attrs st) "voltage_setpoint_values".
Proof.
  unfold HPE3631A.set_current. unfold bind at 1. rewrite not_a_channel_any.
  destruct (negb _); [reflexivity |].
  unfold bind at 1.
  pose proof (fset_attrs HPE3631A.select_output select st) as H1.
  destruct (Instrument.fset HPE3631A.select_output select st) as [[[] | e] st1];
    cbn [snd] in H1 |- *; [| now rewrite H1].
  unfold bind at 1, lift.
  destruct (Py.dict_get HPE3631A._current_range select) as [r | e];
    cbn [snd]; [| now rewrite H1].
  unfold bind, assign. rewrite fset_attrs. cbn [attrs].
  rewrite getattr_setattr_other by reflexivity. now rewrite H1.
Qed.

Lemma perform_keeps_voltage_range (c : Session.call) (st : instance D) :
  getattr (attrs (snd (Session.perform c st))) "voltage_setpoint_values"
  = getattr (attrs st) "voltage_setpoint_values".
Proof.
  destruct c as [lock | | value select | select | select | p | p value];
    cbn [Session.perform].
  - destruct lock; reflexivity.
  - reflexivity.
  - apply set_current_keeps_voltage_range.
  - unfold bind at 1. pose proof (meas_attrs HPE3631A.current select st) as H.
    fold (HPE3631A.meas_current select) in H.
    destruct (HPE3631A.meas_current select st) as [[x | e] st1]; unfold ret;
      cbn [snd] in *; now rewrite H.
  - unfold bind at 1. pose proof (meas_attrs HPE3631A.voltage select st) as H.
    fold (HPE3631A.meas_voltage select) in H.
    destruct (HPE3631A.meas_voltage select st) as [[x | e] st1]; unfold ret;
      cbn [snd] in *; now rewrite H.
  - unfold bind. pose proof (fget_attrs p st) as H.
    destruct (Instrument.fget p st) as [[x | e] st1]; unfold ret; cbn [snd] in *;
      now rewrite H.
  - now rewrite fset_attrs.
Qed.

Lemma script_keeps_voltage_range (cs : list Session.call) (st : instance D) :
  getattr (attrs (snd (Session.script cs st))) "voltage_setpoint_values"
  = getattr (attrs st) "voltage_setpoint_values".
Proof.
  revert st. induction cs as [| c cs IH]; intros st; [reflexivity |].
  cbn [Session.script]. unfold bind.
  pose proof (perform_keeps_voltage_range c st) as H.
  destruct (Session.perform c st) as [[[] | e] st1]; cbn [snd] in *.
  - now rewrite IH.
  - exact H.
Qed.

(** X8: no call of the driver other than [set_voltage] replaces the range
    of [voltage_setpoint].  After [set_voltage] on a valid channel,
    whatever is called next (the mode toggles, [set_current],
    measurements on any channel, reads of and assignments to any
    property), a direct assignment to [voltage_setpoint] is still
    validated against the range of the channel [set_voltage] was called
    for, even when another channel has been selected since. *)
Theorem voltage_range_survives_other_calls
    (st : instance D) (v w : float) (c : Z) (cs : list Session.call) :
  0 <= c < 3 ->
  exists vr text,
    Py.dict_get HPE3631A._voltage_range (PyInt c) = Ok vr /\
    Scenario.setpoint_text vr (PyFloat w) = Ok text /\
    let s := snd (Session.script cs (snd (HPE3631A.set_voltage (PyFloat v) (PyInt c) st))) in
    Instrument.fset HPE3631A.voltage_setpoint (PyFloat w) s
    = (Ok tt,
       {| attrs := attrs s;
          link := transport_write (":SOUR:VOLT " ++ text) (link s);
          log := log s ++ [Write (":SOUR:VOLT " ++ text)] |}).
Proof.
  intros H.
  destruct (channel_rows c H)
    as (tok & a & b & ta & tb & _ & _ & _ & _ & Htok & Hvr & Ha & Hb & Hta & Htb & _).
  destruct (setpoint_text_total a b ta tb v Ha Hb Hta Htb)
    as (x & vtext & Hx & Hnx & Hfx & _ & _).
  destruct (setpoint_text_total a b ta tb w Ha Hb Hta Htb)
    as (y & text & Hy & Hny & Hfy & _ & Htext).
  exists (PyTuple [a; b]), text. split; [exact Hvr |]. split; [exact Htext |].
  cbv zeta.
  rewrite fset_ranged with (fmt := ":SOUR:VOLT %g") (command := ":SOUR:VOLT " ++ text)
                           (rng := PyTuple [a; b]) (w := y);
    try reflexivity; auto.
  - change (Property.name HPE3631A.voltage_setpoint ++ "_values")
      with "voltage_setpoint_values".
    rewrite script_keeps_voltage_range.
    rewrite (set_voltage_run st (PyFloat v) c tok vtext _ x H Htok Hvr Hx Hnx Hfx).
    cbn [snd attrs]. apply getattr_setattr.
  - now apply format_setpoint_volt.
Qed.

End Frame.

(** ** Direct assignments *)

Section Assignments.
Context {D : Type} {T : Transport D}.




Lemma format_applied_needs_two (args : list pyval) :
  List.length args <> 2%nat ->
  exists e, Py.format_args ":APPly %g,%g" args = Raise e.
Proof.
  intros Hlen. cbn [Py.format_args Ascii.eqb Bool.eqb].
  destruct args as [| x [| y [| z l]]].
  - eexists; reflexivity.
  - destruct (Py.convert "g" x); cbn [rbind]; eexists; reflexivity.
  - contradiction Hlen; reflexivity.
  - destruct (Py.convert "g" x); cbn [rbind]; [| eexists; reflexivity].
    destruct (Py.convert "g" y); cbn [rbind]; eexists; reflexivity.
Qed.

(** X10: [applied] is written unvalidated and whole or not at all.  A pair
    of floats is sent as one [:APPly] command with both numbers rendered by
    [%g], whatever ranges have been installed for the setpoints; a value
    that is not a tuple of two items raises and nothing is sent. *)
Theorem applied_sends_pair_unvalidated_or_nothing (st : instance D) :
  (forall v a : float,
     Instrument.fset HPE3631A.applied (PyTuple [PyFloat v; PyFloat a]) st
     = (Ok tt,
        {| attrs := attrs st;
           link := transport_write (":APPly " ++ Py.format_g v ++ "," ++ Py.format_g a)
                     (link st);
           log := log st ++ [Write (":APPly " ++ Py.format_g v ++ "," ++ Py.format_g a)] |})) /\
  (forall value : pyval,
     (forall l, value = PyTuple l -> List.length l <> 2%nat) ->
     exists e, Instrument.fset HPE3631A.applied value st = (Raise e, st)).
Proof.
  split.
  - intros v a.
    unfold Instrument.fset, bind, lift, ret, Instrument.values_in_force, Instrument.write.
    cbn [Property.set_command Property.validator Property.map_values Property.dynamic
         Property.values HPE3631A.applied Instrument.control negb].
    unfold Py.format.
    cbn [Py.format_args Py.convert Ascii.eqb Bool.eqb rbind].
    now rewrite app_empty_r.
  - intros value Hv.
    assert (Hlen : List.length (match value with PyTuple l => l | _ => [value] end) <> 2%nat).
    { destruct value; try (cbn; discriminate). now apply Hv. }
    destruct (format_applied_needs_two _ Hlen) as [e He].
    exists e.
    unfold Instrument.fset, bind, lift, ret, Instrument.values_in_force.
    cbn [Property.set_command Property.validator Property.map_values Property.dynamic
         Property.values HPE3631A.applied Instrument.control negb].
    unfold Py.format. now rewrite He.
Qed.

End Assignments.

(** ** Readings *)

Section Readings.
Context {D : Type} {T : Transport D}.

Lemma fget_single (p : Property.t) (st : instance D) :
  Property.get_process p = Ok -> Property.map_values p = false ->
  free_of "," (Py.strip (fst (transport_query (Property.get_command p) (link st)))) ->
  fst (Instrument.fget p st)
  = Ok (Instrument.cast
          (Py.strip (fst (transport_query (Property.get_command p) (link st))))).
Proof.
  intros Hg Hm Hfree.
  unfold Instrument.fget, Instrument.values_in_force, Instrument.values, Instrument.ask,
    bind, lift, ret.
  destruct (transport_query (Property.get_command p) (link st)) as [r d].
  cbn [fst] in *. rewrite (split_whole "," _ Hfree). cbn [map].
  rewrite Hg, Hm. reflexivity.
Qed.

(** X12: the read-only properties [voltage], [current] and [vers] return a
    float whenever the response, once stripped, holds no comma and reads
    as a float (sign, exponent and surrounding blanks allowed): the float
    it reads as. *)
Theorem measurement_returns_float_of_response (st : instance D) (f : float) :
  (let r := fst (transport_query ":MEAS:VOLT?" (link st)) in
   free_of "," (Py.strip r) -> Py.float_of_str (Py.strip r) = Some f ->
   fst (Instrument.fget HPE3631A.voltage st) = Ok (PyFloat f)) /\
  (let r := fst (transport_query ":MEAS:CURR?" (link st)) in
   free_of "," (Py.strip r) -> Py.float_of_str (Py.strip r) = Some f ->
   fst (Instrument.fget HPE3631A.current st) = Ok (PyFloat f)) /\
  (let r := fst (transport_query "SYST:VERS?" (link st)) in
   free_of "," (Py.strip r) -> Py.float_of_str (Py.strip r) = Some f ->
   fst (Instrument.fget HPE3631A.vers st) = Ok (PyFloat f)).
Proof.
  repeat split; intros r Hfree Hf;
    (rewrite fget_single; [| reflexivity | reflexivity | exact Hfree]);
    unfold Instrument.cast;
    cbn [Property.get_command HPE3631A.voltage HPE3631A.current HPE3631A.vers
         Instrument.measurement];
    fold r; now rewrite Hf.
Qed.

End Readings.

(** ** The further properties at work on the simulated supply *)

Lemma no_channel_witness :
  (forall c, 0 <= c < 3 -> Py.eq (PyStr "1") (PyInt c) = false) /\
  HPE3631A.set_current (PyFloat 1) (PyStr "1") Bench.idle
  = (Raise NotImplementedError, Bench.idle) /\
  HPE3631A.set_voltage (PyFloat 1) (PyStr "1") Bench.idle
  = (Raise NotImplementedError, Bench.idle) /\
  HPE3631A.meas_current (PyStr "1") Bench.idle = (Raise NotImplementedError, Bench.idle) /\
  HPE3631A.meas_voltage (PyStr "1") Bench.idle = (Raise NotImplementedError, Bench.idle).
Proof.
  assert (H : forall c, 0 <= c < 3 -> Py.eq (PyStr "1") (PyInt c) = false)
    by (intros c _; reflexivity).
  exact (conj H (value_that_is_no_channel_raises Bench.idle (PyFloat 1) (PyStr "1") H)).
Defined.

Lemma equal_to_channel_witness :
  0 <= 1 < 3 /\ Py.eq (PyFloat 1) (PyInt 1) = true /\
  HPE3631A.set_voltage (PyFloat 3) (PyFloat 1) Bench.idle
  = HPE3631A.set_voltage (PyFloat 3) (PyInt 1) Bench.idle /\
  log (snd (HPE3631A.set_voltage (PyFloat 3) (PyFloat 1) Bench.idle))
  = [Write "INST:SEL P25V"; Write ":SOUR:VOLT 3"] /\
  HPE3631A.meas_current (PyFloat 1) Bench.idle
  = HPE3631A.meas_current (PyInt 1) Bench.idle.
Proof.
  assert (H : 0 <= 1 < 3) by lia.
  assert (E : Py.eq (PyFloat 1) (PyInt 1) = true) by reflexivity.
  split; [exact H |]. split; [exact E |].
  destruct (value_equal_to_channel_selects_it Bench.idle (PyFloat 3) (PyFloat 1) 1 H E)
    as (_ & Hv & Hc & _).
  split; [exact Hv |]. split; [| exact Hc].
  rewrite Hv. reflexivity.
Defined.

Lemma transmitted_setpoint_witness :
  0 <= 0 < 3 /\ PrimFloat.is_nan nan = true /\
  log (snd (HPE3631A.set_voltage (PyFloat nan) (PyInt 0) Bench.idle))
  = [Write "INST:SEL P6V"; Write ":SOUR:VOLT 0"].
Proof.
  assert (H : 0 <= 0 < 3) by lia. split; [exact H |]. split; [reflexivity |].
  destruct (transmitted_setpoint_is_within_channel_range Bench.idle nan 0 H)
    as (tok & Htok & (lo & hi & w & text & Hvr & _ & _ & Hnan & Htext & _ & Hlog) & _).
  rewrite Hlog. injection Htok as <-. injection Hvr as <- <-.
  rewrite (Hnan eq_refl) in Htext. vm_compute in Htext. injection Htext as <-.
  reflexivity.
Defined.

Lemma no_number_witness :
  0 <= 0 < 3 /\ Py.as_num (PyStr "abc") = None /\
  fst (HPE3631A.set_voltage (PyStr "abc") (PyInt 0) Bench.idle) = Raise TypeError /\
  log (snd (HPE3631A.set_voltage (PyStr "abc") (PyInt 0) Bench.idle))
  = [Write "INST:SEL P6V"] /\
  attrs (snd (HPE3631A.set_voltage (PyStr "abc") (PyInt 0) Bench.idle))
  = [("voltage_setpoint_values", PyTuple [PyInt 0; PyFloat 6.18])].
Proof.
  assert (H : 0 <= 0 < 3) by lia. split; [exact H |]. split; [reflexivity |].
  destruct (value_that_is_no_number_fails_after_selection Bench.idle (PyStr "abc") 0 H eq_refl)
    as (tok & vr & cr & Htok & Hvr & _ & Hrun & _).
  rewrite Hrun. injection Htok as <-. injection Hvr as <-.
  repeat split; reflexivity.
Defined.

Lemma unknown_selection_witness :
  0 <= 1 < 3 /\
  free_of "," (Py.strip "OUT1") /\
  ~ In (Py.strip "OUT1") ["P6V"; "P25V"; "N25V"] /\
  fst (HPE3631A.meas_current (PyInt 1)
         (Bench.boot {| Bench.selected := "OUT1"; Bench.memory := [];
                        Bench.meter := fun _ _ => "0" |})) = Raise KeyError /\
  log (snd (HPE3631A.meas_current (PyInt 1)
              (Bench.boot {| Bench.selected := "OUT1"; Bench.memory := [];
                             Bench.meter := fun _ _ => "0" |})))
  = [Query "INST:SEL?" "OUT1"].
Proof.
  assert (H : 0 <= 1 < 3) by lia.
  assert (Hf : free_of "," (Py.strip "OUT1")) by reflexivity.
  assert (Hn : ~ In (Py.strip "OUT1") ["P6V"; "P25V"; "N25V"])
    by (intros [E | [E | [E | []]]]; discriminate E).
  split; [exact H |]. split; [exact Hf |]. split; [exact Hn |].
  pose proof (unknown_selection_stops_measurement
                (Bench.boot {| Bench.selected := "OUT1"; Bench.memory := [];
                               Bench.meter := fun _ _ => "0" |}) 1 H) as W.
  cbv zeta in W.
  change (fst (transport_query "INST:SEL?"
                 (link (Bench.boot {| Bench.selected := "OUT1"; Bench.memory := [];
                                      Bench.meter := fun _ _ => "0" |}))))
    with "OUT1" in W.
  destruct (W Hf Hn) as (Hc & _).
  rewrite Hc. split; reflexivity.
Defined.

Lemma measurement_channel_witness :
  0 <= 1 < 3 /\
  fst (HPE3631A.meas_current (PyInt 1) Bench.idle) = Ok (PyFloat 0.2) /\
  exists d evs,
    fst (Instrument.fget HPE3631A.select_output
           {| attrs := attrs Bench.idle; link := d; log := evs |}) = Ok (PyInt 1) /\
    Instrument.fget HPE3631A.current {| attrs := attrs Bench.idle; link := d; log := evs |}
    = (Ok (PyFloat 0.2), snd (HPE3631A.meas_current (PyInt 1) Bench.idle)).
Proof.
  assert (H : 0 <= 1 < 3) by lia. split; [exact H |]. split; [reflexivity |].
  assert (Hrun : HPE3631A.meas_current (PyInt 1) Bench.idle
                 = (Ok (PyFloat 0.2), snd (HPE3631A.meas_current (PyInt 1) Bench.idle))).
  { destruct (HPE3631A.meas_current (PyInt 1) Bench.idle) as [r s] eqn:E.
    assert (r = Ok (PyFloat 0.2)) by (apply (f_equal fst) in E; vm_compute in E; congruence).
    subst r. reflexivity. }
  exact (proj1 (measurement_is_taken_on_requested_channel Bench.selected
                  bench_query_reads bench_query_keeps bench_selection_sets
                  Bench.idle _ 1 (PyFloat 0.2) H) Hrun).
Defined.

Lemma measurement_after_setpoint_witness :
  0 <= 0 < 3 /\ 0 <= 1 < 3 /\
  log (snd (HPE3631A.meas_voltage (PyInt 0)
              (snd (HPE3631A.set_voltage (PyFloat 2) (PyInt 0) Bench.idle))))
  = [Write "INST:SEL P6V"; Write ":SOUR:VOLT 2";
     Query "INST:SEL?" "P6V"; Query ":MEAS:VOLT?" "+1.50000000E+00"] /\
  log (snd (HPE3631A.meas_voltage (PyInt 1)
              (snd (HPE3631A.set_voltage (PyFloat 2) (PyInt 0) Bench.idle))))
  = [Write "INST:SEL P6V"; Write ":SOUR:VOLT 2";
     Query "INST:SEL?" "P6V"; Write "INST:SEL P25V"; Sleep 0.2;
     Query ":MEAS:VOLT?" "+1.50000000E+00"].
Proof.
  assert (H : 0 <= 0 < 3) by lia. assert (H' : 0 <= 1 < 3) by lia.
  split; [exact H |]. split; [exact H' |].
  destruct (measurement_after_setpoint_pauses_on_change Bench.selected
              bench_query_reads bench_selection_sets bench_setpoint_keeps
              Bench.idle 2%float 0 0 H H) as ((Hsame & _) & _).
  destruct (measurement_after_setpoint_pauses_on_change Bench.selected
              bench_query_reads bench_selection_sets bench_setpoint_keeps
              Bench.idle 2%float 0 1 H H') as ((_ & Hother) & _).
  cbv zeta in Hsame, Hother.
  split.
  - rewrite (Hsame eq_refl). reflexivity.
  - destruct Hother as (tok & Htok & Hlog); [lia |].
    rewrite Hlog. injection Htok as <-. reflexivity.
Defined.

Lemma voltage_range_witness :
  0 <= 2 < 3 /\
  let s := snd (Session.script
                  [Session.MeasVoltage (PyInt 0); Session.SetRemote true;
                   Session.Assign HPE3631A.select_output (PyInt 0)]
                  (snd (HPE3631A.set_voltage (PyFloat (-5)) (PyInt 2) Bench.idle))) in
  fst (Instrument.fget HPE3631A.select_output s) = Ok (PyInt 0) /\
  log (snd (Instrument.fset HPE3631A.voltage_setpoint (PyFloat 3) s))
  = (log s ++ [Write ":SOUR:VOLT 0"])%list.
Proof.
  assert (H : 0 <= 2 < 3) by lia. split; [exact H |].
  destruct (voltage_range_survives_other_calls Bench.idle (-5)%float 3%float 2
              [Session.MeasVoltage (PyInt 0); Session.SetRemote true;
               Session.Assign HPE3631A.select_output (PyInt 0)] H)
    as (vr & text & Hvr & Htext & Hrun).
  cbv zeta in Hrun |- *. split; [reflexivity |].
  rewrite Hrun. cbn [snd log].
  injection Hvr as <-. vm_compute in Htext. injection Htext as <-. reflexivity.
Defined.



Lemma applied_assignment_witness :
  log (snd (Instrument.fset HPE3631A.applied (PyTuple [PyFloat 30; PyFloat 9])
              (snd (HPE3631A.set_voltage (PyFloat 1) (PyInt 0) Bench.idle))))
  = [Write "INST:SEL P6V"; Write ":SOUR:VOLT 1"; Write ":APPly 30,9"] /\
  exists e, Instrument.fset HPE3631A.applied (PyFloat 30) Bench.idle = (Raise e, Bench.idle).
Proof.
  destruct (applied_sends_pair_unvalidated_or_nothing
              (snd (HPE3631A.set_voltage (PyFloat 1) (PyInt 0) Bench.idle))) as (Hpair & _).
  destruct (applied_sends_pair_unvalidated_or_nothing Bench.idle) as (_ & Hnone).
  split.
  - rewrite Hpair. reflexivity.
  - apply Hnone. intros l E. discriminate E.
Defined.

Lemma measurement_float_witness :
  free_of "," (Py.strip "+1.50000000E+00") /\
  Py.float_of_str (Py.strip "+1.50000000E+00") = Some 1.5%float /\
  fst (Instrument.fget HPE3631A.voltage Bench.idle) = Ok (PyFloat 1.5).
Proof.
  assert (Hf : free_of "," (Py.strip "+1.50000000E+00")) by reflexivity.
  assert (Hx : Py.float_of_str (Py.strip "+1.50000000E+00") = Some 1.5%float)
    by (vm_compute; reflexivity).
  split; [exact Hf |]. split; [exact Hx |].
  exact (proj1 (measurement_returns_float_of_response Bench.idle 1.5) Hf Hx).
Defined.
